(** * felix-api: the authentication service (services/auth.ts)

    A shallow embedding of [AuthService] and of the pieces of the request
    schemas it relies on.  Every [async] method becomes a computation in a
    state-and-exception monad over a [World]: the in-process Keyv store
    ([this.db]), the state of everything outside the process (the clock, the
    Repliers registry, the Strapi identity provider, the message broker, the
    ACL and blocklist repositories) and the trace of the calls made to those
    collaborators.  [throw] is [throw], [try/catch] is [try_catch], and
    [await c; k] is monadic bind.

    Not modelled: [logger.error] and [debug] lines (they neither change the
    store nor the control flow), and floating point (all JS numbers that
    occur are integers and are taken in [Z]). *)

From Stdlib Require Import ZArith.
From stdpp Require Import gmap strings list fin_maps pretty.

Local Open Scope string_scope.
Local Open Scope list_scope.
Local Open Scope Z_scope.

(** ** JavaScript values and objects *)

Module Js.

(** The JSON-like values that travel through the service. *)
Inductive JsVal : Type :=
| JNum (n : Z)
| JStr (s : string)
| JBool (b : bool)
| JNull.

#[global] Instance JsVal_eq_dec : EqDecision JsVal.
Proof. solve_decision. Defined.

(** [!!v]: JavaScript truthiness. *)
Definition truthy (v : JsVal) : bool :=
  match v with
  | JNum n => negb (n =? 0)
  | JStr s => negb (String.eqb s "")
  | JBool b => b
  | JNull => false
  end.

(** Truthiness of a possibly-[undefined] value. *)
Definition truthy_opt (o : option JsVal) : bool :=
  match o with
  | Some v => truthy v
  | None => false
  end.

Definition str_truthy (s : string) : bool := negb (String.eqb s "").
Definition num_truthy (n : Z) : bool := negb (n =? 0).

(** [a || b] on a possibly-[undefined] string. *)
Definition or_else (a : option string) (b : string) : string :=
  match a with
  | Some s => if str_truthy s then s else b
  | None => b
  end.

(** [value.toString()] / template interpolation of an integer. *)
Definition num_toString (n : Z) : string := pretty n.

(** Conversion of a value to a property key, as done by [k in obj]. *)
Definition property_key (v : JsVal) : string :=
  match v with
  | JNum n => num_toString n
  | JStr s => s
  | JBool true => "true"
  | JBool false => "false"
  | JNull => "null"
  end.

(** A plain object is a finite map from property names to values. *)
Abbreviation JsObject := (gmap string JsVal).

(** Object spread [{...a, ...b}]: the properties of [b] are written
    after those of [a], so [b] wins on every shared key. *)
Definition spread (a b : JsObject) : JsObject := b ∪ a.

(** lodash [_.pick(object, paths)]: walk the paths and copy every one
    that the object has. *)
Definition pick (object : JsObject) (paths : list string) : JsObject :=
  foldr (λ path result,
           match object !! path with
           | Some value => <[path := value]> result
           | None => result
           end) ∅ paths.

End Js.
Import Js.

(** ** Errors *)

(** An error object thrown by a collaborator: what [signup] inspects are
    its optional [status] and [statusCode] properties. *)
Record ThrownError : Type := mkThrown {
  err_message : string;
  err_status : option Z;
  err_statusCode : option Z;
}.

(** What a method of the service can reject with: an [ApiError] built
    here ([new ApiError(message, status?)]) or a collaborator's error
    passed through. *)
Inductive Error : Type :=
| ApiError (message : string) (status : option Z)
| Rethrown (e : ThrownError).

(** Modelled from the spec: lib/errors.ts (the [ApiError] class) is not
    among the sources.  An [ApiError] built without a status is the
    "Internal" condition of the error taxonomy, HTTP-like code 500, which
    is also what the log line of [refresh] prints. *)
Definition ApiError_status (status : option Z) : Z := default 500 status.

Definition error_status (e : Error) : option Z :=
  match e with
  | ApiError _ status => Some (ApiError_status status)
  | Rethrown t => match err_status t with
                  | Some s => Some s
                  | None => err_statusCode t
                  end
  end.

(** A settled promise. *)
Inductive Outcome (A : Type) : Type :=
| Resolved (a : A)
| Rejected (e : Error).
Arguments Resolved {A} a.
Arguments Rejected {A} e.

(** ** Token claims and sign options (jsonwebtoken) *)

(** [JwtPayload]: the registered claims the service reads, typed as in
    the interface, and the index signature ([email], [role], [sub], ...). *)
Record JwtPayload : Type := mkPayload {
  iat : option Z;
  exp : option Z;
  iss : option string;
  jti : option string;
  claims : JsObject;
}.

Record SignOptions : Type := mkSignOptions {
  algorithm : string;
  expiresIn : string;
  issuer : string;
  jwtid : string;
}.

(** ** Configuration (the fields of [AppConfig] the service reads) *)

Record JwtSettingsPartial : Type := mkJwtSettings {
  js_expire : option string;
}.

Record RoleOverride : Type := mkRoleOverride {
  ro_jwt : option JwtSettingsPartial;
}.

Record AppConfig : Type := mkConfig {
  app_disable_persistence : bool;
  auth_jwt_expire : string;
  auth_jwt_issuer : string;
  auth_roleOverrides : option (gmap string RoleOverride);
  auth_otp_ttl_ms : Z;
  auth_otp_resend_ttl_ms : Z;
  auth_otp_message : string;
  auth_otp_uri : string;
  auth_otp_message_type : string;
  auth_emailtoken_enabled : bool;
  auth_emailtoken_expire : string;
  auth_emailtoken_auto_otp : bool;
  auth_agents_signature_salt : string;
  boss_system_key : string;
  repliers_clients_defaultAgentId : Z;
}.

(** ** The Keyv store behind [this.db] *)

Module Keyv.

(** The two kinds of values the service writes: [{clientId}] under a
    code ([KeyvClientOtpItem]) and [Date.now()] under a cooldown key. *)
Inductive Value : Type :=
| OtpItem (clientId : Z)
| Num (n : Z).

#[global] Instance Value_eq_dec : EqDecision Value.
Proof. solve_decision. Defined.

(** Keyv wraps a value as [{value, expires}], [expires] being [null]
    when the entry never expires. *)
Record Entry : Type := mkEntry {
  value : Value;
  expires : option Z;
}.

#[global] Instance Entry_eq_dec : EqDecision Entry.
Proof. solve_decision. Defined.

Abbreviation Store := (gmap string Entry).

(** An entry is dead once the clock has passed its [expires]. *)
Definition expired (now : Z) (e : Entry) : bool :=
  match expires e with
  | Some t => t <? now
  | None => false
  end.

(** [get]: an expired entry is deleted on sight and reads as
    [undefined]. *)
Definition get (now : Z) (key : string) (s : Store) : option Value * Store :=
  match s !! key with
  | None => (None, s)
  | Some e => if expired now e then (None, base.delete key s)
              else (Some (value e), s)
  end.

(** The [expires] of an entry written at [now] with [ttl]: a zero ttl
    means no expiry. *)
Definition expiry (now ttl : Z) : option Z :=
  if ttl =? 0 then None else Some (now + ttl).

(** [set(key, value, ttl)] *)
Definition set (now : Z) (key : string) (v : Value) (ttl : Z) (s : Store) : Store :=
  <[key := mkEntry v (expiry now ttl)]> s.

Definition delete (key : string) (s : Store) : Store := base.delete key s.

(** What a read at time [now] would see, without the clean-up. *)
Definition live (now : Z) (key : string) (s : Store) : option Value :=
  fst (get now key s).

End Keyv.

(** ** Data exchanged with the collaborators *)

(** A record of the Repliers client registry ([RplClientsClient]): the
    fields the service reads by name, and the rest of the object. *)
Record RplClient : Type := mkClient {
  clientId : Z;
  agentId : Z;
  email : string;
  client_rest : JsObject;
}.

(** The registry record as the plain object it is. *)
Definition client_obj (c : RplClient) : JsObject :=
  <["clientId" := JNum (clientId c)]>
    (<["agentId" := JNum (agentId c)]>
       (<["email" := JStr (email c)]> (client_rest c))).

Record Preferences : Type := mkPreferences {
  pref_email : bool;
  pref_sms : bool;
  pref_unsubscribe : bool;
}.

Record ClientsCreateParams : Type := mkCreate {
  create_agentId : Z;
  create_fname : string;
  create_lname : string;
  create_email : string;
  create_externalId : Z;
  create_preferences : Preferences;
  create_status : bool;
}.

Record ClientsUpdateParams : Type := mkUpdate {
  update_clientId : Z;
  update_agentId : Z;
  update_fname : string;
  update_lname : string;
  update_externalId : Z;
  update_preferences : Preferences;
  update_status : bool;
}.

Inductive ClientsFilterParams : Type :=
| FilterByEmail (email : string)
| FilterByExternalId (externalId : string).

(** [StrapiAuthResponse]: the provider's token and its user object, whose
    [id] the service reads by name. *)
Record StrapiUser : Type := mkStrapiUser {
  id : Z;
  strapi_rest : JsObject;
}.

Definition strapi_obj (u : StrapiUser) : JsObject :=
  <["id" := JNum (id u)]> (strapi_rest u).

Record StrapiAuthResponse : Type := mkStrapiAuth {
  jwt : string;
  user : StrapiUser;
}.

Record StrapiRegisterDto : Type := mkRegister {
  reg_username : string;
  reg_email : string;
  reg_password : string;
  reg_firstName : string;
  reg_lastName : string;
}.

Record StrapiLoginDto : Type := mkStrapiLogin {
  sl_identifier : string;
  sl_password : string;
}.

(** A delivered message of the broker, as far as the service looks. *)
Record Message : Type := mkMessage {
  msg_clientId : Z;
  msg_agentId : Z;
  delivery_sentDateTime : string;
}.

(** The body of an OTP message ([formatOtpMessageContent]). *)
Record OtpContent : Type := mkContent {
  content_message : string;
  content_links : option (list string);
}.

Record MessagesSendParams : Type := mkSend {
  send_agentId : Z;
  send_clientId : Z;
  send_sender : string;
  send_content : OtpContent;
}.

(** An access-control record; the service reads its [role]. *)
Record Acl : Type := mkAcl {
  acl_role : string;
}.

(** [BossEmbedContext], decoded from the embed blob. *)
Record BossEmbedContext : Type := mkBoss {
  boss_user_email : string;
  boss_person_id : Z;
}.

(** ** Request bodies (validate/auth.ts) *)

Record UserOtpDto : Type := mkOtpDto { code : string }.

Record UserLoginDto : Type := mkLoginDto {
  identifier : string;
  password : option string;
}.

Record UserSignupDto : Type := mkSignupDto {
  username : string;
  signup_email : string;
  firstName : string;
  lastName : string;
  signup_password : string;
}.

Record AuthRepliersTokenDto : Type := mkTokenDto { token : string }.

Record AuthEmbedDto : Type := mkEmbedDto {
  context : string;
  signature : string;
}.

(** [userLoginSchema]: the identifier is a required e-mail address
    ([email] stands for joi's [string().email()]); the password is
    optional and at least 6 characters long when given. *)
Definition userLoginSchema (email : string → bool) (d : UserLoginDto) : bool :=
  email (identifier d)
  && match password d with
     | None => true
     | Some p => (6 <=? String.length p)%nat
     end.

(** [userOtpSchema]: a code of exactly 6 characters. *)
Definition userOtpSchema (d : UserOtpDto) : bool :=
  (String.length (code d) =? 6)%nat.

(** ** Responses *)

(** What [useOtp] and [useRepliersToken] return: [{token, profile}]. *)
Record TokenProfile : Type := mkTokenProfile {
  tp_token : string;
  tp_profile : JsObject;
}.

(** [AuthResponseDto] as [login] and [signup] return it: the token may
    be [undefined] and the user [null]. *)
Record AuthResponseDto : Type := mkAuthResponse {
  res_token : option string;
  res_user : option JsObject;
}.

Record EmbedResponse : Type := mkEmbedResponse {
  embed_jwt : string;
  clientSignature : string;
}.

Definition userProfilKeys : list string :=
  ["id"; "clientId"; "username"; "firstName"; "lastName"; "email";
   "confirmed"; "blocked"; "createdAt"; "updatedAt"].

(** ** The world outside the method bodies *)

(** A call that leaves the process, for the trace. *)
Inductive Event : Type :=
| AclGetUserAcl (email : option JsVal)
| JwtSign (payload : JwtPayload) (options : SignOptions)
| CodegenGenerate (code : string)
| ClientsGet (clientId : option Z)
| ClientsFilter (params : ClientsFilterParams)
| ClientsCreate (params : ClientsCreateParams)
| ClientsUpdate (params : ClientsUpdateParams)
| MessagesSend (params : MessagesSendParams)
| MessagesGet (token : string)
| BlocklistCreate (jti : string) (exp : Z)
| StrapiRegister (data : StrapiRegisterDto)
| StrapiLogin (data : StrapiLoginDto).

(** The Keyv store of the process, the state [Ext] of everything else
    (clock included), and the calls made so far. *)
Record World (Ext : Type) : Type := mkWorld {
  db : Keyv.Store;
  ext : Ext;
  trace : list Event;
}.
Arguments mkWorld {Ext} db ext trace.
Arguments db {Ext} w.
Arguments ext {Ext} w.
Arguments trace {Ext} w.

(** A collaborator's method: it sees and changes the outside state and
    either returns or throws an [E]. *)
Definition Call (Ext E A : Type) : Type := Ext → (E + A) * Ext.

(** An [AxiosError], as far as [StrapiService] looks into it:
    [error.response?.status] and [error.response?.data?.error?.message]. *)
Record AxiosError : Type := mkAxiosError {
  response_status : option Z;
  response_data_error_message : option string;
}.

(** The runtime and the libraries: clock, randomness, jsonwebtoken, ms,
    axios, and the decoding [JSON.parse(Buffer.from(c, "base64"))].
    [Date_parse s] is [new Date(s).getTime()] and [ms s] is [ms(s)]:
    both are [None] where JavaScript yields [NaN] or [undefined]. *)
Record Platform (Ext : Type) : Type := mkPlatform {
  Date_now : Ext → Z;
  Date_parse : string → option Z;
  crypto_randomUUID : Ext → string * Ext;
  jwt_sign : JwtPayload → string → SignOptions → Call Ext ThrownError string;
  ms : string → option Z;
  axios_post_register : StrapiRegisterDto → Call Ext AxiosError StrapiAuthResponse;
  axios_post_login : StrapiLoginDto → Call Ext AxiosError StrapiAuthResponse;
  decode_context : string → ThrownError + BossEmbedContext;
}.
Arguments mkPlatform {Ext}.
Arguments Date_now {Ext} p.
Arguments Date_parse {Ext} p.
Arguments crypto_randomUUID {Ext} p.
Arguments jwt_sign {Ext} p.
Arguments ms {Ext} p.
Arguments axios_post_register {Ext} p.
Arguments axios_post_login {Ext} p.
Arguments decode_context {Ext} p.

(** Modules of the repository that are not among the sources and are
    only used here: constants.ts ([UserRole]), lib/boss/auth.ts and
    lib/utils.ts.  They are taken as they come. *)
Record Lib : Type := mkLib {
  UserRole_User : string;
  UserRole_Agent : string;
  isFromFollowUpBoss : string → string → string → bool;
  calcSignature : string → string → string;
}.

(** The injected fields of an [AuthService] instance.  [strapiService]
    is embedded further down; the other services and repositories are
    reached over the network and are taken as calls. *)
Record AuthService (Ext : Type) : Type := mkAuthService {
  config : AppConfig;
  keys_private : string;
  aclRepo_getUserAcl : option JsVal → Call Ext ThrownError (option Acl);
  clients_get : option Z → Call Ext ThrownError RplClient;
  clients_filter : ClientsFilterParams → Call Ext ThrownError (list RplClient);
  clients_create : ClientsCreateParams → Call Ext ThrownError RplClient;
  clients_update : ClientsUpdateParams → Call Ext ThrownError unit;
  messages_send : MessagesSendParams → Call Ext ThrownError unit;
  messages_get : string → Call Ext ThrownError (list Message);
  blocklistRepository_create : string → Z → Call Ext ThrownError unit;
  codegen_generate : Ext → string * Ext;
}.
Arguments mkAuthService {Ext}.
Arguments config {Ext} a.
Arguments keys_private {Ext} a.
Arguments aclRepo_getUserAcl {Ext} a.
Arguments clients_get {Ext} a.
Arguments clients_filter {Ext} a.
Arguments clients_create {Ext} a.
Arguments clients_update {Ext} a.
Arguments messages_send {Ext} a.
Arguments messages_get {Ext} a.
Arguments blocklistRepository_create {Ext} a.
Arguments codegen_generate {Ext} a.

(** ** The monad of [async] methods *)

Definition M (Ext A : Type) : Type := World Ext → Outcome A * World Ext.

Section Monad.
Context {Ext : Type}.

Definition ret {A} (a : A) : M Ext A := λ w, (Resolved a, w).

Definition bind {A B} (c : M Ext A) (k : A → M Ext B) : M Ext B :=
  λ w, match c w with
       | (Resolved a, w') => k a w'
       | (Rejected e, w') => (Rejected e, w')
       end.

Definition throw {A} (e : Error) : M Ext A := λ w, (Rejected e, w).

(** [try { c } catch (error) { h error }] *)
Definition try_catch {A} (c : M Ext A) (h : Error → M Ext A) : M Ext A :=
  λ w, match c w with
       | (Resolved a, w') => (Resolved a, w')
       | (Rejected e, w') => h e w'
       end.

(** A recorded call to a collaborator; [wrap] turns what it throws
    into what the caller catches. *)
Definition call {E A} (wrap : E → Error) (ev : Event) (f : Call Ext E A) : M Ext A :=
  λ w, let '(r, x) := f (ext w) in
       (match r with
        | inl e => Rejected (wrap e)
        | inr a => Resolved a
        end, mkWorld (db w) x (trace w ++ [ev])).

(** [await this.db.get(key)] *)
Definition db_get (P : Platform Ext) (key : string) : M Ext (option Keyv.Value) :=
  λ w, let '(v, s) := Keyv.get (Date_now P (ext w)) key (db w) in
       (Resolved v, mkWorld s (ext w) (trace w)).

(** [await this.db.set(key, value, ttl)] *)
Definition db_set (P : Platform Ext) (key : string) (v : Keyv.Value) (ttl : Z) : M Ext unit :=
  λ w, (Resolved tt,
        mkWorld (Keyv.set (Date_now P (ext w)) key v ttl (db w)) (ext w) (trace w)).

(** [await this.db.delete(key)] *)
Definition db_delete (key : string) : M Ext unit :=
  λ w, (Resolved tt, mkWorld (Keyv.delete key (db w)) (ext w) (trace w)).

(** [Date.now()] *)
Definition now (P : Platform Ext) : M Ext Z :=
  λ w, (Resolved (Date_now P (ext w)), w).

End Monad.

Notation "'await' x <- c ; k" := (bind c (λ x, k))
  (at level 10, x name, c at level 100, k at level 200,
   format "'[v' 'await'  x  <-  c ; '/' k ']'").
Notation "'run' c ; k" := (bind c (λ _, k))
  (at level 10, c at level 100, k at level 200,
   format "'[v' 'run'  c ; '/' k ']'").

(** ** services/strapi.ts *)

Module StrapiService.
Section StrapiService.
Context {Ext : Type} (P : Platform Ext).

(** The [catch] of [register]: a 400 of the provider keeps its message,
    anything else becomes 503. *)
Definition register_catch (error : AxiosError) : Error :=
  if bool_decide (response_status error = Some 400) then
    let strapiError :=
      or_else (response_data_error_message error) "Registration failed" in
    ApiError strapiError (Some 400)
  else ApiError "Registration service unavailable" (Some 503).

Definition register (data : StrapiRegisterDto) : M Ext StrapiAuthResponse :=
  call register_catch (StrapiRegister data) (axios_post_register P data).

(** The [catch] of [login]: a 400 of the provider is bad credentials. *)
Definition login_catch (error : AxiosError) : Error :=
  if bool_decide (response_status error = Some 400) then
    ApiError "Invalid credentials" (Some 401)
  else ApiError "Authentication service unavailable" (Some 503).

Definition login (data : StrapiLoginDto) : M Ext StrapiAuthResponse :=
  call login_catch (StrapiLogin data) (axios_post_login P data).

End StrapiService.
End StrapiService.

(** ** services/auth.ts *)

Section AuthService.
Context {Ext : Type} (P : Platform Ext) (L : Lib) (this : AuthService Ext).

Definition cfg : AppConfig := config this.

Definition getRoleOverride (role : JsVal) : option JwtSettingsPartial :=
  match auth_roleOverrides cfg with
  | Some roleOverrides =>
      match roleOverrides !! property_key role with
      | Some override => ro_jwt override
      | None => None
      end
  | None => None
  end.

(** [acl?.role || payload["role"] || UserRole.User] *)
Definition effective_role (acl : option Acl) (payload : JwtPayload) : JsVal :=
  let claimed :=
    match claims payload !! "role" with
    | Some r => if truthy r then r else JStr (UserRole_User L)
    | None => JStr (UserRole_User L)
    end in
  match acl with
  | Some a => if str_truthy (acl_role a) then JStr (acl_role a) else claimed
  | None => claimed
  end.

(** [payload["role"] = role] *)
Definition set_role (payload : JwtPayload) (role : JsVal) : JwtPayload :=
  mkPayload (iat payload) (exp payload) (iss payload) (jti payload)
            (<["role" := role]> (claims payload)).

(** The body of [if (!disable_persistence)] once the ACL record is
    there: the payload with its role settled, and the expiry that role
    gets. *)
Definition settle (acl : option Acl) (payload : JwtPayload) : JwtPayload * string :=
  let role := effective_role acl payload in
  let roleOverride := getRoleOverride role in
  (set_role payload role,
   or_else (roleOverride ≫= js_expire) (auth_jwt_expire cfg)).

(** The first half of [generateToken]: payload and default expiry,
    settled through the ACL repository unless persistence is off. *)
Definition resolve (payload : JwtPayload) : M Ext (JwtPayload * string) :=
  let defaultExpire := auth_jwt_expire cfg in
  if negb (app_disable_persistence cfg) then
    await acl <- call Rethrown (AclGetUserAcl (claims payload !! "email"))
                      (aclRepo_getUserAcl this (claims payload !! "email"));
    ret (settle acl payload)
  else ret (payload, defaultExpire).

Definition randomUUID : M Ext string :=
  λ w, let '(u, x) := crypto_randomUUID P (ext w) in
       (Resolved u, mkWorld (db w) x (trace w)).

Definition generateToken (payload : JwtPayload) (expiresIn : option string)
  : M Ext string :=
  await r <- resolve payload;
  let payload := fst r in
  let defaultExpire := snd r in
  await uuid <- randomUUID;
  let signInOptions :=
    mkSignOptions "RS256" (or_else expiresIn defaultExpire)
                  (auth_jwt_issuer cfg) uuid in
  call Rethrown (JwtSign payload signInOptions)
       (jwt_sign P payload (keys_private this) signInOptions).

(** [!!code] and [code.clientId] for what [db.get] hands back. *)
Definition value_truthy (v : Keyv.Value) : bool :=
  match v with
  | Keyv.OtpItem _ => true
  | Keyv.Num n => num_truthy n
  end.

Definition value_clientId (v : Keyv.Value) : option Z :=
  match v with
  | Keyv.OtpItem c => Some c
  | Keyv.Num _ => None
  end.

Definition otp_used_or_expired : Error :=
  ApiError "The OTP link you follow has already been used or expired. Go to Sign in to request a new link."
           (Some 403).

(** The payload [{email, sub}] built for a registry record. *)
Definition client_payload (user : RplClient) : JwtPayload :=
  mkPayload None None None None
    (<["email" := JStr (email user)]>
       (<["sub" := JStr (num_toString (clientId user))]> ∅)).

Definition useOtp (params : UserOtpDto) : M Ext TokenProfile :=
  await found <- db_get P (code params);
  match found with
  | None => throw otp_used_or_expired
  | Some item =>
      if negb (value_truthy item) then throw otp_used_or_expired
      else
        await user <- call Rethrown (ClientsGet (value_clientId item))
                           (clients_get this (value_clientId item));
        await token <- generateToken (client_payload user) None;
        let profile := pick (client_obj user) userProfilKeys in
        run db_delete (code params);
        ret (mkTokenProfile token profile)
  end.

Definition loginWithStrapi (email password : string) : M Ext AuthResponseDto :=
  try_catch
    (await strapiAuth <- StrapiService.login P (mkStrapiLogin email password);
     await result <- call Rethrown
                          (ClientsFilter (FilterByExternalId (num_toString (id (user strapiAuth)))))
                          (clients_filter this (FilterByExternalId (num_toString (id (user strapiAuth)))));
     let first := match result with
                  | c :: _ => client_obj c
                  | [] => ∅
                  end in
     let profile := pick (spread first (strapi_obj (user strapiAuth))) userProfilKeys in
     ret (mkAuthResponse (Some (jwt strapiAuth)) (Some profile)))
    (λ error, throw error).

Definition login (params : UserLoginDto) : M Ext AuthResponseDto :=
  match password params with
  | Some pw =>
      if str_truthy pw && str_truthy (identifier params) then
        await result <- loginWithStrapi (identifier params) pw;
        ret (mkAuthResponse (res_token result) (res_user result))
      else ret (mkAuthResponse None None)
  | None => ret (mkAuthResponse None None)
  end.

Definition otpSentKey (clientId : Z) : string :=
  "otp_sent_" +:+ num_toString clientId.

Definition otp_rate_limited : Error :=
  ApiError "You have already requested a new OTP. Please wait before requesting another one."
           (Some 403).

Definition otpSendRateOpened (clientId : Z) : M Ext unit :=
  await lastSent <- db_get P (otpSentKey clientId);
  match lastSent with
  | Some v => if value_truthy v then throw otp_rate_limited else ret tt
  | None => ret tt
  end.

Definition formatOtpMessageContent (code : string) : OtpContent :=
  let link := auth_otp_uri cfg +:+ "?code=" +:+ code in
  let linkTypeContent := mkContent (auth_otp_message cfg) (Some [link]) in
  let codeTypeMessage := auth_otp_message cfg +:+ " " +:+ code in
  if String.eqb (auth_otp_message_type cfg) "link" then linkTypeContent
  else if String.eqb (auth_otp_message_type cfg) "code" then
    mkContent codeTypeMessage None
  else if String.eqb (auth_otp_message_type cfg) "link_and_code" then
    mkContent codeTypeMessage (Some [link])
  else linkTypeContent.

(** [this.codegen.generate()] *)
Definition generate : M Ext string :=
  λ w, let '(c, x) := codegen_generate this (ext w) in
       (Resolved c, mkWorld (db w) x (trace w ++ [CodegenGenerate c])).

Definition sendOtp (clientId : Z) (agentId : option Z) : M Ext string :=
  let agentId := default (repliers_clients_defaultAgentId cfg) agentId in
  run otpSendRateOpened clientId;
  await code <- generate;
  run db_set P code (Keyv.OtpItem clientId) (auth_otp_ttl_ms cfg);
  await t <- now P;
  run db_set P (otpSentKey clientId) (Keyv.Num t) (auth_otp_resend_ttl_ms cfg);
  let content := formatOtpMessageContent code in
  let params := mkSend agentId clientId "agent" content in
  run call Rethrown (MessagesSend params) (messages_send this params);
  ret code.

(** [if (!payload.iat || !payload.exp)] *)
Definition lacks (n : option Z) : bool :=
  match n with
  | Some v => negb (num_truthy v)
  | None => true
  end.

Definition no_expiration_info : Error :=
  ApiError "Token doesn't include expiration info, cant refresh token" None.

(** [if (jti) await this.blocklistRepository.create(jti, exp)] *)
Definition revoke_previous (jti : option string) (exp : Z) : M Ext unit :=
  match jti with
  | Some j => if str_truthy j then
                call Rethrown (BlocklistCreate j exp)
                     (blocklistRepository_create this j exp)
              else ret tt
  | None => ret tt
  end.

(** The calls [revoke_previous] makes: one call when there is a
    non-empty [jti], none otherwise. *)
Definition revocation (jti : option string) (exp : Z) : list Event :=
  match jti with
  | Some j => if str_truthy j then [BlocklistCreate j exp] else []
  | None => []
  end.

(** Returns the [token] of [{token}]. *)
Definition refresh (payload : JwtPayload) : M Ext string :=
  if lacks (iat payload) || lacks (exp payload) then throw no_expiration_info
  else
    (* past the guard both numbers are there *)
    let newPayload := mkPayload None None None None (claims payload) in
    let diff := default 0 (exp payload) - default 0 (iat payload) in
    let expiresIn := num_toString diff +:+ "s" in
    await token <- generateToken newPayload (Some expiresIn);
    run revoke_previous (jti payload) (default 0 (exp payload));
    ret token.

Definition logout (jti : string) (exp : Z) : M Ext unit :=
  call Rethrown (BlocklistCreate jti exp) (blocklistRepository_create this jti exp).

(** [error.status === 409 || error.statusCode === 409] *)
Definition is_conflict (error : Error) : bool :=
  match error with
  | Rethrown e => bool_decide (err_status e = Some 409)
                  || bool_decide (err_statusCode e = Some 409)
  | ApiError _ status => bool_decide (ApiError_status status = 409)
  end.

Definition signup_preferences : Preferences := mkPreferences true true false.

(** Step 2 of [signup]: create the registry record, or on a 409 find
    the one that is there, update it and read it back. *)
Definition create_or_update (params : UserSignupDto) (strapiAuth : StrapiAuthResponse)
  : M Ext (option RplClient) :=
  let create :=
    mkCreate (repliers_clients_defaultAgentId cfg) (firstName params)
             (lastName params) (signup_email params) (id (user strapiAuth))
             signup_preferences true in
  try_catch
    (await userInfo <- call Rethrown (ClientsCreate create) (clients_create this create);
     ret (Some userInfo))
    (λ error,
       if is_conflict error then
         await existingUsers <-
           call Rethrown (ClientsFilter (FilterByEmail (signup_email params)))
                (clients_filter this (FilterByEmail (signup_email params)));
         match existingUsers with
         | [] => throw (ApiError "User conflict but not found" (Some 500))
         | existingUser :: _ =>
             let update :=
               mkUpdate (clientId existingUser) (agentId existingUser)
                        (firstName params) (lastName params)
                        (id (user strapiAuth)) signup_preferences true in
             run call Rethrown (ClientsUpdate update) (clients_update this update);
             await userInfo <- call Rethrown (ClientsGet (Some (clientId existingUser)))
                                    (clients_get this (Some (clientId existingUser)));
             ret (Some userInfo)
         end
       else throw error).

Definition signup (params : UserSignupDto) : M Ext AuthResponseDto :=
  await strapiAuth <-
    try_catch
      (StrapiService.register P
         (mkRegister (username params) (signup_email params)
                     (signup_password params) (firstName params) (lastName params)))
      (λ error, throw error);
  await userInfo <- create_or_update params strapiAuth;
  match userInfo with
  | None => throw (ApiError "Failed to create or retrieve user" (Some 500))
  | Some userInfo =>
      let profile :=
        pick (spread (client_obj userInfo) (strapi_obj (user strapiAuth)))
             userProfilKeys in
      ret (mkAuthResponse (Some (jwt strapiAuth)) (Some profile))
  end.

(** [now - sent > window]; a comparison with [NaN] or [undefined] is
    false. *)
Definition expired_since (now : Z) (sent window : option Z) : bool :=
  match sent, window with
  | Some sent, Some window => window <? now - sent
  | _, _ => false
  end.

Definition useRepliersToken (params : AuthRepliersTokenDto) : M Ext TokenProfile :=
  if negb (auth_emailtoken_enabled cfg) then
    throw (ApiError "Endpoint is not activated" (Some 400))
  else
    let repliersToken := token params in
    await messageRes <- call Rethrown (MessagesGet repliersToken)
                             (messages_get this repliersToken);
    match messageRes with
    | [] => throw (ApiError "Email token is invalid" (Some 403))
    | message :: _ =>
        await t <- now P;
        if expired_since t (Date_parse P (delivery_sentDateTime message))
                         (ms P (auth_emailtoken_expire cfg)) then
          if auth_emailtoken_auto_otp cfg then
            run sendOtp (msg_clientId message) (Some (msg_agentId message));
            throw (ApiError "Email token has expired. Please check your email/text for a new authentication link"
                            (Some 412))
          else throw (ApiError "Email token has expired" (Some 403))
        else
          let clientId := msg_clientId message in
          await userInfo <- call Rethrown (ClientsGet (Some clientId))
                                 (clients_get this (Some clientId));
          await token <- generateToken (client_payload userInfo) None;
          let profile := pick (client_obj userInfo) userProfilKeys in
          ret (mkTokenProfile token profile)
    end.

Definition embedLogin (params : AuthEmbedDto) : M Ext EmbedResponse :=
  let isValid :=
    isFromFollowUpBoss L (context params) (signature params) (boss_system_key cfg) in
  if negb isValid then throw (ApiError "Invalid signature" (Some 401))
  else
    match decode_context P (context params) with
    | inl e => throw (Rethrown e)
    | inr decodedContext =>
        await jwt <- generateToken
                       (mkPayload None None None None
                          (<["email" := JStr (boss_user_email decodedContext)]>
                             (<["role" := JStr (UserRole_Agent L)]> ∅)))
                       None;
        let clientSignature :=
          calcSignature L (num_toString (boss_person_id decodedContext))
                        (auth_agents_signature_salt cfg) in
        ret (mkEmbedResponse jwt clientSignature)
    end.

End AuthService.

(** ** A concrete deployment

    A small instance of the platform and of the collaborators, on which
    the methods above can be run: the outside state is just the clock. *)

Module Scenario.

Definition uuid : string := "5d3c0a6e-0c1b-4a55-9d0e-2f6c1b7a9e10".

Definition platform : Platform Z :=
  mkPlatform
    (λ x, x)
    (λ s, if String.eqb s "1970-01-01T00:00:00.000Z" then Some 0 else None)
    (λ x, (uuid, x))
    (λ payload key options x, (inr ("jwt." +:+ expiresIn options +:+ "." +:+ jwtid options), x))
    (λ s, if String.eqb s "5m" then Some 300000 else None)
    (λ data x, (inr (mkStrapiAuth "strapi.jwt"
                       (mkStrapiUser 31 (<["email" := JStr (reg_email data)]>
                                         (<["username" := JStr (reg_username data)]>
                                          (<["firstName" := JStr (reg_firstName data)]> ∅))))), x))
    (λ data x, (inr (mkStrapiAuth "strapi.jwt"
                       (mkStrapiUser 31 (<["email" := JStr (sl_identifier data)]>
                                         (<["confirmed" := JBool true]> ∅)))), x))
    (λ c, inr (mkBoss "agent@x.com" 42)).

Definition lib : Lib :=
  mkLib "user" "agent"
        (λ context signature key, String.eqb signature (key +:+ ":" +:+ context))
        (λ message salt, salt +:+ ":" +:+ message).

Definition overrides : gmap string RoleOverride :=
  <["agent" := mkRoleOverride (Some (mkJwtSettings (Some "12h")))]>
    (<["user" := mkRoleOverride None]> ∅).

Definition configure (disable_persistence emailtoken auto_otp : bool) : AppConfig :=
  mkConfig disable_persistence "1h" "felix" (Some overrides)
           600000 60000 "Your sign-in link:" "https://felix.test/otp" "link"
           emailtoken "5m" auto_otp "salt" "bosskey" 1.

Definition alice : RplClient :=
  mkClient 7 1 "a@x.com"
           (<["fname" := JStr "Al"]> (<["firstName" := JStr "Alice"]>
              (<["username" := JStr "registry-name"]> ∅))).

Definition conflict : ThrownError := mkThrown "Conflict" (Some 409) None.

(** The collaborators: one ACL answer, one answer of the registry's
    [create], one of its [filter], one of the broker's [get]; [get] of
    the registry always finds [alice], the code generator always
    yields "424242". *)
Definition service (c : AppConfig) (acl : option Acl)
           (created : ThrownError + RplClient) (found : list RplClient)
           (messages : list Message) : AuthService Z :=
  mkAuthService c "private-key"
    (λ email x, (inr acl, x))
    (λ id x, (inr alice, x))
    (λ params x, (inr found, x))
    (λ params x, (created, x))
    (λ params x, (inr tt, x))
    (λ params x, (inr tt, x))
    (λ token x, (inr messages, x))
    (λ jti exp x, (inr tt, x))
    (λ x, ("424242", x)).

Definition world (s : Keyv.Store) (clock : Z) : World Z := mkWorld s clock [].

(** Persistence on, no ACL record, e-mail tokens on with auto-resend. *)
Definition deployed : AuthService Z :=
  service (configure false true true) None (inr alice) [] [].

(** The same with persistence off. *)
Definition stateless : AuthService Z :=
  service (configure true true true) None (inr alice) [] [].

(** Persistence on, and an ACL record with the given role for every
    e-mail. *)
Definition with_acl (role : string) : AuthService Z :=
  service (configure false true true) (Some (mkAcl role)) (inr alice) [] [].

(** The registry answers [create] with a 409 and finds [found] by
    e-mail. *)
Definition conflicting (found : list RplClient) : AuthService Z :=
  service (configure false true true) None (inl conflict) found [].

(** The broker knows the given messages; the e-mail token endpoint is
    switched on or off. *)
Definition mailed (enabled : bool) (messages : list Message) : AuthService Z :=
  service (configure false enabled true) None (inr alice) [] messages.

(** What Strapi answers to the registration of [new_signup]. *)
Definition registered : StrapiAuthResponse :=
  mkStrapiAuth "strapi.jwt"
    (mkStrapiUser 31 (<["email" := JStr "a@x.com"]>
                        (<["username" := JStr "al"]>
                           (<["firstName" := JStr "Alice"]> ∅)))).

(** The claims [{email}] of a caller that names no role. *)
Definition bare_claims : JwtPayload :=
  mkPayload None None None None (<["email" := JStr "a@x.com"]> ∅).

(** A store holding the code "424242" for client 7, alive until 600010. *)
Definition issued : Keyv.Store :=
  <["424242" := Keyv.mkEntry (Keyv.OtpItem 7) (Some 600010)]> ∅.

(** A store holding the cooldown mark of client 7, written at 599000. *)
Definition cooling : Keyv.Store :=
  <["otp_sent_7" := Keyv.mkEntry (Keyv.Num 599000) (Some 659000)]> ∅.

(** Claims of a token issued at 100 and expiring at 3700. *)
Definition old_claims : JwtPayload :=
  mkPayload (Some 100) (Some 3700) (Some "felix") (Some "old-jti")
            (<["email" := JStr "a@x.com"]>
               (<["role" := JStr "user"]> (<["sub" := JStr "7"]> ∅))).

Definition new_signup : UserSignupDto :=
  mkSignupDto "al" "a@x.com" "Alice" "Liddell" "secret1".

(** A message of the broker for client 7, sent at the epoch. *)
Definition old_message : Message := mkMessage 7 1 "1970-01-01T00:00:00.000Z".

Definition embed : AuthEmbedDto := mkEmbedDto "Y29udGV4dA==" "bosskey:Y29udGV4dA==".

End Scenario.

(** ** Deployments with failing collaborators

    Like [Scenario], with the answer of every collaborator chosen by the
    caller, so that the error paths can be run. *)

Module Cases.

(** The platform with the given answers of [jwt.sign], of Strapi's
    login and registration endpoints, and of the context decoder. *)
Definition platform (signed : option ThrownError)
           (registered logged : AxiosError + StrapiAuthResponse)
           (decoded : ThrownError + BossEmbedContext) : Platform Z :=
  mkPlatform
    (λ x, x)
    (Date_parse Scenario.platform)
    (λ x, (Scenario.uuid, x))
    (λ payload key options x,
       (match signed with
        | Some e => inl e
        | None => inr ("jwt." +:+ expiresIn options +:+ "." +:+ jwtid options)
        end, x))
    (ms Scenario.platform)
    (λ data x, (registered, x))
    (λ data x, (logged, x))
    (λ c, decoded).

(** The service with the given answers of the ACL repository, of the
    registry's [get], [filter] and [create], of the broker's [send] and
    of the blocklist. *)
Definition service (c : AppConfig) (acl : ThrownError + option Acl)
           (got : ThrownError + RplClient) (found : ThrownError + list RplClient)
           (created : ThrownError + RplClient) (sent revoked : ThrownError + unit)
  : AuthService Z :=
  mkAuthService c "private-key"
    (λ email x, (acl, x))
    (λ id x, (got, x))
    (λ params x, (found, x))
    (λ params x, (created, x))
    (λ params x, (inr tt, x))
    (λ params x, (sent, x))
    (λ token x, (inr [], x))
    (λ jti exp x, (revoked, x))
    (λ x, ("424242", x)).

Definition unavailable : ThrownError := mkThrown "Service Unavailable" (Some 503) None.

Definition healthy : Platform Z :=
  platform None (inr Scenario.registered) (inr Scenario.registered)
           (inr (mkBoss "agent@x.com" 42)).

(** Everything answers. *)
Definition up : AuthService Z :=
  service (Scenario.configure false true false) (inr None) (inr Scenario.alice)
          (inr [Scenario.alice]) (inr Scenario.alice) (inr tt) (inr tt).

(** The registry is down. *)
Definition registry_down : AuthService Z :=
  service (Scenario.configure false true false) (inr None) (inl unavailable)
          (inl unavailable) (inl unavailable) (inr tt) (inr tt).

(** The broker is down. *)
Definition broker_down : AuthService Z :=
  service (Scenario.configure false true false) (inr None) (inr Scenario.alice)
          (inr [Scenario.alice]) (inr Scenario.alice) (inl unavailable) (inr tt).

(** The ACL repository is down. *)
Definition acl_down : AuthService Z :=
  service (Scenario.configure false true false) (inl unavailable) (inr Scenario.alice)
          (inr [Scenario.alice]) (inr Scenario.alice) (inr tt) (inr tt).

(** The blocklist is down. *)
Definition blocklist_down : AuthService Z :=
  service (Scenario.configure false true false) (inr None) (inr Scenario.alice)
          (inr [Scenario.alice]) (inr Scenario.alice) (inr tt) (inl unavailable).

(** A store with the code "424242" for client 7 and the cooldown mark
    of client 7. *)
Definition both : Keyv.Store :=
  <["424242" := Keyv.mkEntry (Keyv.OtpItem 7) (Some 600010)]> Scenario.cooling.

(** Strapi refuses the credentials. *)
Definition bad_credentials : Platform Z :=
  platform None (inr Scenario.registered) (inl (mkAxiosError (Some 400) None))
           (inr (mkBoss "agent@x.com" 42)).

(** Strapi refuses the registration and says why. *)
Definition taken : Platform Z :=
  platform None
           (inl (mkAxiosError (Some 400) (Some "Email or Username are already taken")))
           (inr Scenario.registered) (inr (mkBoss "agent@x.com" 42)).

(** The context cannot be parsed. *)
Definition garbled : Platform Z :=
  platform None (inr Scenario.registered) (inr Scenario.registered)
           (inl (mkThrown "Unexpected token" None None)).

End Cases.

(** ** Helper predicates for stating behaviour *)

(** Whether [otpSendRateOpened] throws at [w]: the cooldown key of the
    subject reads as a truthy value. *)
Definition throttled {Ext : Type} (P : Platform Ext) (clientId : Z) (w : World Ext)
  : bool :=
  match Keyv.live (Date_now P (ext w)) (otpSentKey clientId) (db w) with
  | Some v => value_truthy v
  | None => false
  end.


(** ** HTTP: what the service sends to Strapi and gets back *)

Module Http.

#[local] Set Warnings "-register-all".

(** A JavaScript value as it comes out of [response.data], or
    [undefined]. *)
Inductive Json : Type :=
| JsonUndefined
| JsonNull
| JsonBool (b : bool)
| JsonNum (n : Z)
| JsonStr (s : string)
| JsonArr (items : list Json)
| JsonObj (props : gmap string Json).

(** [!!j] *)
Definition truthy (j : Json) : bool :=
  match j with
  | JsonUndefined | JsonNull => false
  | JsonBool b => b
  | JsonNum n => negb (n =? 0)
  | JsonStr s => negb (String.eqb s "")
  | JsonArr _ | JsonObj _ => true
  end.

(** [a || b] *)
Definition or_json (a b : Json) : Json := if truthy a then a else b.

Inductive Method : Type := GET | POST | PUT.

Record Headers : Type := mkHeaders {
  Authorization : option string;
  Content_Type : option string;
}.

(** An axios request: the URL as given to the call, and the settings
    of the instance or of the call. *)
Record Request : Type := mkRequest {
  method : Method;
  baseURL : option string;
  url : string;
  headers : Headers;
  timeout : Z;
  data : option Json;
}.

(** The state outside the process and the requests sent so far. *)
Record Net (Ext : Type) : Type := mkNet {
  outside : Ext;
  sent : list Request;
}.
Arguments mkNet {Ext} outside sent.
Arguments outside {Ext} n.
Arguments sent {Ext} n.

(** axios: a request is answered with [response.data] or fails with an
    [AxiosError]. *)
Definition Axios (Ext A : Type) : Type := Request → Ext → (AxiosError + A) * Ext.

Definition H (Ext A : Type) : Type := Net Ext → Outcome A * Net Ext.

(** [try { response = await axios(request); ok(response.data) }
     catch (error) { failed(error) }], where both branches return or
    throw at once. *)
Definition attempt {Ext A B : Type} (axios : Axios Ext A) (request : Request)
           (ok : A → Outcome B) (failed : AxiosError → Outcome B) : H Ext B :=
  λ n, let '(r, x) := axios request (outside n) in
       (match r with
        | inl error => failed error
        | inr body => ok body
        end, mkNet x (sent n ++ [request])).

(** [config.strapi] *)
Record StrapiSettings : Type := mkStrapiSettings {
  base_url : string;
  timeout_ms : option Z;
  api_key : string;
}.

(** [config.strapi.timeout_ms || 5000] *)
Definition timeout_or_default (s : StrapiSettings) : Z :=
  match timeout_ms s with
  | Some t => if t =? 0 then 5000 else t
  | None => 5000
  end.

(** The body of [/api/users/me] ([StrapiUser]): an object whose [id] is
    a number. *)
Record UserData : Type := mkUserData {
  user_id : Z;
  user_props : gmap string Json;
}.

Definition user_object (u : UserData) : gmap string Json :=
  <["id" := JsonNum (user_id u)]> (user_props u).

End Http.

(** ** services/strapi.ts, the rest of [StrapiService] *)

Module StrapiClient.
Import Http.

(** A JavaScript number that may be [NaN]; [Int n] is an integer that
    prints in decimal. *)
Inductive Num : Type :=
| Int (n : Z)
| NaN.

(** [`${n}`] for a number that may be missing. *)
Definition interpolate (n : option Num) : string :=
  match n with
  | Some (Int z) => num_toString z
  | Some NaN => "NaN"
  | None => "undefined"
  end.

Record ArticlesParams : Type := mkArticlesParams {
  pageNum : option Num;
  pageSize : option Num;
  categoryId : option string;
  isFeatured : option bool;
}.

(** What [getArticles] returns when the request fails. *)
Definition no_articles : Json :=
  JsonObj
    (<["data" := JsonArr []]>
       (<["meta" :=
            JsonObj
              (<["pagination" :=
                   JsonObj (<["page" := JsonNum 0]>
                              (<["pageSize" := JsonNum 0]>
                                 (<["total" := JsonNum 0]>
                                    (<["pageCount" := JsonNum 0]> ∅))))]> ∅)]> ∅)).

Section StrapiClient.
Context {Ext : Type} (strapi : StrapiSettings).
Context (users_me : Axios Ext UserData) (axios : Axios Ext Json).

(** A request through [this.client], the instance made in the
    constructor. *)
Definition client (m : Method) (path : string) (authorization : option string)
           (body : option Json) : Request :=
  mkRequest m (Some (base_url strapi)) path
            (mkHeaders authorization (Some "application/json"))
            (timeout_or_default strapi) body.

Definition bearer (token : string) : option string := Some ("Bearer " +:+ token).

Definition getMe (token : string) : H Ext UserData :=
  attempt users_me (client GET "/api/users/me" (bearer token) None)
          Resolved
          (λ error,
             if bool_decide (response_status error = Some 401)
             then Rejected (ApiError "Invalid or expired token" (Some 401))
             else Rejected (ApiError "Authentication service unavailable" (Some 503))).

Definition updateUser (id : Z) (data : Json) : H Ext unit :=
  attempt axios
          (client PUT ("/api/users/" +:+ num_toString id) (bearer (api_key strapi))
                  (Some data))
          (λ _, Resolved tt)
          (λ error, Rejected (ApiError "Update service unavailable" (Some 503))).

Definition forgotPassword (email : string) : H Ext Json :=
  attempt axios
          (client POST "/api/auth/forgot-password" None
                  (Some (JsonObj (<["email" := JsonStr email]> ∅))))
          Resolved
          (λ error, Rejected (ApiError "Password reset service unavailable" (Some 503))).

Definition resetPassword (code password passwordConfirmation : string) : H Ext Json :=
  attempt axios
          (client POST "/api/auth/reset-password" None
                  (Some (JsonObj
                           (<["code" := JsonStr code]>
                              (<["password" := JsonStr password]>
                                 (<["passwordConfirmation" :=
                                      JsonStr passwordConfirmation]> ∅))))))
          Resolved
          (λ error,
             if bool_decide (response_status error = Some 400)
             then Rejected (ApiError "Invalid or expired reset code" (Some 400))
             else Rejected (ApiError "Password reset service unavailable" (Some 503))).

(** The URI of [getArticles]: [isFeatured] defaults to [false] and only
    [true] adds the filter. *)
Definition articlesUri (params : ArticlesParams) : string :=
  let uri :=
    "/api/articles?pagination[page]=" +:+ interpolate (pageNum params)
    +:+ "&pagination[pageSize]=" +:+ interpolate (pageSize params)
    +:+ "&_sort=createdAt:DESC" in
  if default false (isFeatured params)
  then uri +:+ "&filters[isFeatured][$eq]=true"
  else uri.

Definition getArticles (params : ArticlesParams) : H Ext Json :=
  attempt axios (client GET (articlesUri params) (bearer (api_key strapi)) None)
          Resolved
          (λ error, Resolved no_articles).

Definition getArticleBySlug (slug : string) : H Ext Json :=
  attempt axios (client GET ("/api/articles/" +:+ slug) (bearer (api_key strapi)) None)
          (λ body, Resolved (or_json body JsonNull))
          (λ error, Resolved JsonNull).

Definition getArticleCategories : H Ext Json :=
  attempt axios (client GET "/api/article-categories" (bearer (api_key strapi)) None)
          Resolved
          (λ error, Resolved JsonNull).

Definition getArticleCategoryBySlug (slug : string) : H Ext Json :=
  attempt axios
          (client GET ("/api/article-categories/" +:+ slug) (bearer (api_key strapi)) None)
          Resolved
          (λ error, Resolved JsonNull).

End StrapiClient.
End StrapiClient.

(** ** routes/content.ts *)

Module ContentRouter.
Import Http StrapiClient.

Section ContentRouter.
Context {Ext : Type} (strapi : StrapiSettings) (axios : Axios Ext Json).

(** [parseInt(s, 10)] *)
Context (parseInt : string → Num).

(** [GET /content/articles]; [query] is [ctx.query] with one string per
    key, the result is [ctx.body]. *)
Definition articles (query : gmap string string) : H Ext Json :=
  let pageNum := query !! "page" in
  let pageSize := query !! "pageSize" in
  let categoryId := query !! "categoryId" in
  let isFeatured := query !! "isFeatured" in
  let number (given : option string) (otherwise : Z) : Num :=
    match given with
    | Some s => if str_truthy s then parseInt s else Int otherwise
    | None => Int otherwise
    end in
  let given (o : option string) : option string :=
    match o with
    | Some s => if str_truthy s then Some s else None
    | None => None
    end in
  getArticles strapi axios
    (mkArticlesParams
       (Some (number pageNum 1))
       (Some (number pageSize 10))
       (given categoryId)
       (match given isFeatured with
        | Some s => Some (String.eqb s "true")
        | None => None
        end)).

(** [GET /content/articles/:slug] *)
Definition article (slug : string) : H Ext Json :=
  λ n, match getArticleBySlug strapi axios slug n with
       | (Resolved found, n') =>
           if negb (truthy found)
           then (Rejected (ApiError "Article not found" (Some 404)), n')
           else (Resolved found, n')
       | (Rejected e, n') => (Rejected e, n')
       end.

End ContentRouter.
End ContentRouter.

(** ** providers/middleware/jwt/strapi.ts *)

Module JwtMiddleware.
Import Http.

Section JwtMiddleware.
Context {Ext : Type} (strapi : StrapiSettings) (users_me : Axios Ext UserData).

Definition no_token : Error := ApiError "No authorization token provided" (Some 401).

(** [authHeader.substring(7)] *)
Definition substring7 (authHeader : string) : string :=
  String.substring 7 (String.length authHeader - 7) authHeader.

(** The request to Strapi: plain axios, the full URL, the timeout of
    the configuration. *)
Definition validation (token : string) : Request :=
  mkRequest GET None (base_url strapi +:+ "/api/users/me")
            (mkHeaders (Some ("Bearer " +:+ token)) None)
            (timeout_or_default strapi) None.

(** [userData.role?.type] *)
Definition role_type (role : option Json) : Json :=
  match role with
  | Some (JsonObj props) => default JsonUndefined (props !! "type")
  | _ => JsonUndefined
  end.

(** [ctx.state.user]: the four computed properties, then everything
    [userData] has. *)
Definition state_user (userData : UserData) : gmap string Json :=
  let own (k : string) : Json := default JsonUndefined (user_object userData !! k) in
  let computed : gmap string Json :=
    <["sub" := JsonStr (num_toString (user_id userData))]>
      (<["email" := own "email"]>
         (<["username" := own "username"]>
            (<["role" := or_json (role_type (user_object userData !! "role"))
                                 (JsonStr "authenticated")]> ∅))) in
  user_object userData ∪ computed.

(** The middleware: [authorization] is [ctx.headers.authorization],
    [next] the downstream middleware, which sees [ctx.state.user]. *)
Definition middleware (authorization : option string)
           (next : gmap string Json → H Ext unit) : H Ext unit :=
  match authorization with
  | None => λ n, (Rejected no_token, n)
  | Some authHeader =>
      if negb (str_truthy authHeader) || negb (String.prefix "Bearer " authHeader)
      then λ n, (Rejected no_token, n)
      else
        let token := substring7 authHeader in
        λ n, match attempt users_me (validation token) Resolved
                           (λ error,
                              if bool_decide (response_status error = Some 401)
                              then Rejected (ApiError "Invalid or expired token" (Some 401))
                              else Rejected (ApiError "Authentication service unavailable"
                                                      (Some 503)))
                           n with
             | (Resolved userData, n') => next (state_user userData) n'
             | (Rejected e, n') => (Rejected e, n')
             end
  end.

End JwtMiddleware.
End JwtMiddleware.

(** ** A concrete Strapi *)

Module HttpCases.
Import Http StrapiClient.

Definition settings : StrapiSettings := mkStrapiSettings "https://cms.test" None "api-key".

(** Strapi answers every content request with the given body. *)
Definition serving (body : Json) : Axios unit Json := λ request x, (inr body, x).

(** Strapi fails every request with the given status. *)
Definition failing {A : Type} (status : option Z) : Axios unit A :=
  λ request x, (inl (mkAxiosError status None), x).

(** A user of Strapi with a role object, as [/api/users/me] returns it
    when the role is populated. *)
Definition editor : UserData :=
  mkUserData 31
    (<["email" := JsonStr "a@x.com"]>
       (<["username" := JsonStr "al"]>
          (<["role" := JsonObj (<["type" := JsonStr "editor"]>
                                  (<["name" := JsonStr "Editor"]> ∅))]> ∅))).

(** Strapi knows [editor] under the header "Bearer good" only. *)
Definition users_me : Axios unit UserData :=
  λ request x,
    (if bool_decide (Authorization (headers request) = Some "Bearer good")
     then inr editor
     else inl (mkAxiosError (Some 401) None), x).

Definition idle : Net unit := mkNet tt [].

(** A downstream handler that does nothing. *)
Definition downstream (user : gmap string Json) : H unit unit :=
  λ n, (Resolved tt, n).

(** A [parseInt] for the page numbers used here. *)
Definition parseInt (s : string) : Num :=
  if String.eqb s "2" then Int 2 else if String.eqb s "25" then Int 25 else NaN.

End HttpCases.

(** * Properties *)

(** ** Objects: [pick] and spread *)

Lemma pick_cons (o : JsObject) (p : string) (ks : list string) :
  pick o (p :: ks) = match o !! p with
                     | Some value => <[p := value]> (pick o ks)
                     | None => pick o ks
                     end.
Proof. reflexivity. Qed.

Lemma lookup_pick (o : JsObject) (ks : list string) (k : string) :
  pick o ks !! k = if decide (k ∈ ks) then o !! k else None.
Proof.
  induction ks as [|p ks IH].
  - rewrite decide_False by apply not_elem_of_nil. apply lookup_empty.
  - rewrite pick_cons. destruct (decide (p = k)) as [->|Hne].
    + rewrite decide_True by (apply elem_of_cons; by left).
      destruct (o !! k) eqn:Hk.
      * by rewrite lookup_insert_eq.
      * rewrite IH. by destruct (decide (k ∈ ks)).
    + transitivity (pick o ks !! k).
      * destruct (o !! p); [by rewrite lookup_insert_ne|done].
      * rewrite IH. destruct (decide (k ∈ ks)) as [Hin|Hin].
        -- rewrite decide_True by (apply elem_of_cons; by right). done.
        -- rewrite decide_False; [done|].
           rewrite elem_of_cons. intros [->|?]; done.
Qed.

Lemma lookup_spread_r (a b : JsObject) (k : string) (v : JsVal) :
  b !! k = Some v → spread a b !! k = Some v.
Proof. intros H. unfold spread. by apply lookup_union_Some_l. Qed.

Lemma lookup_spread_l (a b : JsObject) (k : string) :
  b !! k = None → spread a b !! k = a !! k.
Proof. intros H. unfold spread. by rewrite lookup_union_r. Qed.

(** ** The store *)

Lemma keyv_get_absent (t : Z) (k : string) (s : Keyv.Store) :
  s !! k = None → Keyv.get t k s = (None, s).
Proof. intros H. unfold Keyv.get. by rewrite H. Qed.

Lemma keyv_get_live (t : Z) (k : string) (s : Keyv.Store) (e : Keyv.Entry) :
  s !! k = Some e → Keyv.expired t e = false →
  Keyv.get t k s = (Some (Keyv.value e), s).
Proof. intros H He. unfold Keyv.get. rewrite H. by rewrite He. Qed.

Lemma keyv_get_store (t : Z) (k k' : string) (s : Keyv.Store) :
  k ≠ k' → (Keyv.get t k s).2 !! k' = s !! k'.
Proof.
  intros Hne. unfold Keyv.get. destruct (s !! k) as [e|] eqn:Hk; [|done].
  destruct (Keyv.expired t e); [|done]. simpl. by rewrite lookup_delete_ne.
Qed.

Lemma keyv_live_None_get (t : Z) (k : string) (s : Keyv.Store) :
  Keyv.live t k s = None → (Keyv.get t k s).2 !! k = None.
Proof.
  unfold Keyv.live, Keyv.get. destruct (s !! k) as [e|] eqn:Hk; [|done].
  destruct (Keyv.expired t e); simpl; [|done]. intros _. apply lookup_delete_eq.
Qed.

Lemma keyv_live_deleted (t : Z) (k : string) (s : Keyv.Store) :
  Keyv.live t k (Keyv.delete k s) = None.
Proof.
  unfold Keyv.live, Keyv.get, Keyv.delete. by rewrite lookup_delete_eq.
Qed.

(** ** Token issuance leaves the store alone *)

Section Issuance.
Context {Ext : Type} (P : Platform Ext) (L : Lib) (this : AuthService Ext).

Lemma call_db {E A} (wrap : E → Error) (ev : Event) (f : Call Ext E A)
      (w w' : World Ext) (r : Outcome A) :
  call wrap ev f w = (r, w') → db w' = db w ∧ trace w' = trace w ++ [ev].
Proof.
  unfold call. destruct (f (ext w)) as [o x]. intros [= _ <-]. done.
Qed.

Lemma resolve_db (payload : JwtPayload) (w w' : World Ext)
      (r : Outcome (JwtPayload * string)) :
  resolve L this payload w = (r, w') → db w' = db w.
Proof.
  unfold resolve. destruct (negb (app_disable_persistence (cfg this))).
  - unfold bind. destruct (call _ _ _ w) as [[acl|e] w1] eqn:Hc;
      apply call_db in Hc as [Hdb _]; unfold ret; intros [= _ <-]; done.
  - unfold ret. by intros [= _ <-].
Qed.

Lemma generateToken_db (payload : JwtPayload) (expiresIn : option string)
      (w w' : World Ext) (r : Outcome string) :
  generateToken P L this payload expiresIn w = (r, w') → db w' = db w.
Proof.
  unfold generateToken, bind.
  destruct (resolve L this payload w) as [[pe|e] w1] eqn:Hr;
    apply resolve_db in Hr.
  - unfold randomUUID at 1. destruct (crypto_randomUUID P (ext w1)) as [u x]. simpl.
    intros Hc. apply call_db in Hc as [Hdb _]. simpl in Hdb. congruence.
  - intros [= _ <-]. done.
Qed.

(** The two ways [resolve] goes: with persistence it asks the ACL
    repository once and settles role and expiry; without, it hands the
    payload and the default expiry back untouched. *)
Lemma resolve_persistent (payload : JwtPayload) (w : World Ext)
      (acl : option Acl) (x1 : Ext) :
  app_disable_persistence (cfg this) = false →
  aclRepo_getUserAcl this (claims payload !! "email") (ext w) = (inr acl, x1) →
  resolve L this payload w
    = (Resolved (settle L this acl payload),
       mkWorld (db w) x1 (trace w ++ [AclGetUserAcl (claims payload !! "email")])).
Proof.
  intros Hp Hacl. unfold resolve, bind, call, ret.
  rewrite Hp. simpl. by rewrite Hacl.
Qed.

Lemma resolve_acl_throws (payload : JwtPayload) (w : World Ext)
      (e : ThrownError) (x1 : Ext) :
  app_disable_persistence (cfg this) = false →
  aclRepo_getUserAcl this (claims payload !! "email") (ext w) = (inl e, x1) →
  resolve L this payload w
    = (Rejected (Rethrown e),
       mkWorld (db w) x1 (trace w ++ [AclGetUserAcl (claims payload !! "email")])).
Proof.
  intros Hp Hacl. unfold resolve, bind, call, ret.
  rewrite Hp. simpl. by rewrite Hacl.
Qed.

Lemma resolve_verbatim (payload : JwtPayload) (w : World Ext) :
  app_disable_persistence (cfg this) = true →
  resolve L this payload w = (Resolved (payload, auth_jwt_expire (cfg this)), w).
Proof. intros Hp. unfold resolve, ret. by rewrite Hp. Qed.

(** Once [resolve] has answered, [generateToken] draws a token id and
    signs. *)
Lemma generateToken_signs (payload : JwtPayload) (expiresIn : option string)
      (settled : JwtPayload * string) (w w1 : World Ext) (u : string) (x2 x3 : Ext)
      (r : ThrownError + string) :
  resolve L this payload w = (Resolved settled, w1) →
  crypto_randomUUID P (ext w1) = (u, x2) →
  let options :=
    mkSignOptions "RS256" (or_else expiresIn settled.2)
                  (auth_jwt_issuer (cfg this)) u in
  jwt_sign P settled.1 (keys_private this) options x2 = (r, x3) →
  generateToken P L this payload expiresIn w
    = (match r with
       | inl e => Rejected (Rethrown e)
       | inr tok => Resolved tok
       end,
       mkWorld (db w1) x3 (trace w1 ++ [JwtSign settled.1 options])).
Proof.
  intros Hr Hu options Hs. unfold generateToken, bind.
  rewrite Hr. unfold randomUUID. rewrite Hu. simpl.
  unfold call. simpl. fold options. by rewrite Hs.
Qed.

(** [generateToken] in one piece, for either setting of
    [disable_persistence]: the ACL repository is asked exactly when
    persistence is on. *)
Lemma generateToken_run (payload : JwtPayload) (expiresIn : option string)
      (w : World Ext) (acl : option Acl) (x1 : Ext) (u : string) (x2 x3 : Ext)
      (r : ThrownError + string) :
  let persist := negb (app_disable_persistence (cfg this)) in
  (persist = true →
   aclRepo_getUserAcl this (claims payload !! "email") (ext w) = (inr acl, x1)) →
  (persist = false → x1 = ext w) →
  crypto_randomUUID P x1 = (u, x2) →
  let settled :=
    if persist then settle L this acl payload
    else (payload, auth_jwt_expire (cfg this)) in
  let options :=
    mkSignOptions "RS256" (or_else expiresIn settled.2)
                  (auth_jwt_issuer (cfg this)) u in
  jwt_sign P settled.1 (keys_private this) options x2 = (r, x3) →
  generateToken P L this payload expiresIn w
    = (match r with
       | inl e => Rejected (Rethrown e)
       | inr tok => Resolved tok
       end,
       mkWorld (db w) x3
               (trace w
                ++ (if persist then [AclGetUserAcl (claims payload !! "email")] else [])
                ++ [JwtSign settled.1 options])).
Proof.
  intros persist Hacl Hoff Hu settled options Hs.
  destruct (app_disable_persistence (cfg this)) eqn:Hp; simpl in persist;
    subst persist; simpl in *.
  - specialize (Hoff eq_refl). subst x1.
    rewrite (generateToken_signs payload expiresIn settled w w u x2 x3 r);
      [done|by apply resolve_verbatim|done|done].
  - specialize (Hacl eq_refl).
    rewrite (generateToken_signs payload expiresIn settled w _ u x2 x3 r
               (resolve_persistent _ _ _ _ Hp Hacl) Hu Hs).
    simpl. by rewrite <- app_assoc.
Qed.

Lemma str_truthy_ne (s : string) : s ≠ "" → str_truthy s = true.
Proof. intros H. unfold str_truthy. by destruct s. Qed.

Lemma or_else_Some (s d : string) : s ≠ "" → or_else (Some s) d = s.
Proof. intros H. unfold or_else. by rewrite str_truthy_ne. Qed.

(** An explicit expiry made of a number and a unit is never empty. *)
Lemma or_else_seconds (n : Z) (d : string) :
  or_else (Some (num_toString n +:+ "s")) d = num_toString n +:+ "s".
Proof.
  unfold or_else, str_truthy.
  by destruct (num_toString n).
Qed.

End Issuance.

(** ** The claims about [AuthService] *)

Section Claims.
Context {Ext : Type} (P : Platform Ext) (L : Lib) (this : AuthService Ext).

(** A code that reads as absent (never stored, expired, or deleted) is
    refused with 403, and nothing outside the store is touched. *)
Lemma useOtp_absent (params : UserOtpDto) (w : World Ext) :
  Keyv.live (Date_now P (ext w)) (code params) (db w) = None →
  useOtp P L this params w =
    (Rejected otp_used_or_expired,
     mkWorld (Keyv.get (Date_now P (ext w)) (code params) (db w)).2 (ext w) (trace w)).
Proof.
  unfold Keyv.live, useOtp, bind, db_get.
  destruct (Keyv.get _ _ _) as [v s]. simpl. by intros ->.
Qed.

(** C1. OTP codes are single-use.  With the code stored and alive, and
    the registry and token issuance answering, [useOtp] resolves with
    the token and the profile and leaves the code deleted; any later
    call on that store is rejected with the 403 "used or expired"
    error; and whenever the code reads as absent the call is rejected
    with that error without any call to a collaborator, so without a
    token being signed. *)
Theorem useOtp_single_use (params : UserOtpDto) (w : World Ext)
        (e : Keyv.Entry) (cid : Z) (user : RplClient) (x1 : Ext)
        (tok : string) (w2 : World Ext) :
  db w !! code params = Some e →
  Keyv.expired (Date_now P (ext w)) e = false →
  Keyv.value e = Keyv.OtpItem cid →
  clients_get this (Some cid) (ext w) = (inr user, x1) →
  generateToken P L this (client_payload user) None
                (mkWorld (db w) x1 (trace w ++ [ClientsGet (Some cid)]))
    = (Resolved tok, w2) →
  let w' := mkWorld (Keyv.delete (code params) (db w)) (ext w2) (trace w2) in
  useOtp P L this params w
    = (Resolved (mkTokenProfile tok (pick (client_obj user) userProfilKeys)), w')
  ∧ db w' !! code params = None
  ∧ (∀ w3 : World Ext, db w3 = db w' →
       useOtp P L this params w3 = (Rejected otp_used_or_expired, w3))
  ∧ (∀ w0 : World Ext,
       Keyv.live (Date_now P (ext w0)) (code params) (db w0) = None →
       ∃ w0', useOtp P L this params w0 = (Rejected otp_used_or_expired, w0')
              ∧ trace w0' = trace w0 ∧ ext w0' = ext w0
              ∧ db w0' !! code params = None)
  ∧ error_status otp_used_or_expired = Some 403.
Proof.
  intros Hdb Hlive Hval Hget Htok w'.
  split; [|split; [|split; [|split]]].
  - unfold useOtp, bind, db_get.
    rewrite (keyv_get_live _ _ _ _ Hdb Hlive), Hval. simpl.
    unfold call at 1. simpl. rewrite Hget.
    pose proof (generateToken_db _ _ _ _ _ _ _ _ Htok) as Hkeep.
    rewrite Htok. unfold db_delete, ret. simpl. subst w'. by rewrite Hkeep.
  - subst w'. simpl. apply lookup_delete_eq.
  - intros [s x tr] Hs. simpl in Hs.
    rewrite useOtp_absent; simpl.
    + rewrite keyv_get_absent; [done|]. rewrite Hs. apply lookup_delete_eq.
    + rewrite Hs. apply keyv_live_deleted.
  - intros w0 Habs. eexists. split; [by apply useOtp_absent|].
    simpl. repeat split. by apply keyv_live_None_get.
  - reflexivity.
Qed.

(** C2. Claims without [iat] or without [exp] cannot be refreshed:
    [refresh] is rejected with the status-less [ApiError], which is the
    Internal (500) condition, and the world is left as it was: no call
    to the ACL repository, no token signed, nothing revoked. *)
Theorem refresh_without_expiration_info (payload : JwtPayload) (w : World Ext) :
  iat payload = None ∨ exp payload = None →
  refresh P L this payload w = (Rejected no_expiration_info, w)
  ∧ error_status no_expiration_info = Some 500.
Proof.
  intros H. split; [|reflexivity]. unfold refresh.
  destruct H as [-> | ->]; simpl; [done|].
  by rewrite orb_true_r.
Qed.

(** C10. For a login request without a password, the schema asks for
    nothing but a well-formed identifier, and [login] resolves with
    [{token: undefined, user: null}]; the world is left as it was, so
    neither Strapi nor the registry is called and no OTP is generated,
    stored or sent. *)
Theorem login_without_password (params : UserLoginDto) (w : World Ext)
        (email : string → bool) :
  password params = None →
  userLoginSchema email params = email (identifier params)
  ∧ login P this params w = (Resolved (mkAuthResponse None None), w).
Proof.
  intros H. unfold userLoginSchema, login. rewrite H. split; [|done].
  apply andb_true_r.
Qed.

Lemma otpSentKey_length (clientId : Z) :
  (9 <= String.length (otpSentKey clientId))%nat.
Proof. unfold otpSentKey. simpl. lia. Qed.

(** A six-character code, as [userOtpSchema] wants it, is never a
    cooldown key. *)
Lemma code_not_otpSentKey (c : string) (clientId : Z) :
  userOtpSchema (mkOtpDto c) = true → c ≠ otpSentKey clientId.
Proof.
  unfold userOtpSchema. simpl. intros H ->.
  apply Nat.eqb_eq in H. pose proof (otpSentKey_length clientId). lia.
Qed.

(** [sendOtp] against a live, truthy cooldown mark. *)
Lemma sendOtp_closed (clientId : Z) (agentId : option Z) (w : World Ext)
      (v : Keyv.Value) :
  Keyv.live (Date_now P (ext w)) (otpSentKey clientId) (db w) = Some v →
  value_truthy v = true →
  sendOtp P this clientId agentId w = (Rejected otp_rate_limited, w).
Proof.
  destruct w as [s x tr]. simpl. intros Hlive Hv.
  unfold sendOtp, bind, otpSendRateOpened, bind, db_get. simpl.
  unfold Keyv.live in Hlive.
  unfold Keyv.get in *. destruct (s !! otpSentKey clientId) as [e|]; [|done].
  destruct (Keyv.expired _ e); [done|]. simpl in Hlive.
  injection Hlive as ->. simpl. by rewrite Hv.
Qed.

(** [sendOtp] with no live mark, the broker accepting the message. *)
Lemma sendOtp_open (clientId : Z) (agentId : option Z) (w : World Ext)
      (c : string) (x1 x2 : Ext) :
  Keyv.live (Date_now P (ext w)) (otpSentKey clientId) (db w) = None →
  codegen_generate this (ext w) = (c, x1) →
  let params :=
    mkSend (default (repliers_clients_defaultAgentId (cfg this)) agentId)
           clientId "agent" (formatOtpMessageContent this c) in
  messages_send this params x1 = (inr tt, x2) →
  let t := Date_now P x1 in
  sendOtp P this clientId agentId w
    = (Resolved c,
       mkWorld (Keyv.set t (otpSentKey clientId) (Keyv.Num t)
                  (auth_otp_resend_ttl_ms (cfg this))
                  (Keyv.set t c (Keyv.OtpItem clientId) (auth_otp_ttl_ms (cfg this))
                     (Keyv.get (Date_now P (ext w)) (otpSentKey clientId) (db w)).2))
               x2 (trace w ++ [CodegenGenerate c; MessagesSend params])).
Proof.
  intros Hlive Hgen params Hsend t. destruct w as [s x tr]. simpl in *.
  unfold sendOtp, bind, otpSendRateOpened, bind, db_get. simpl.
  unfold Keyv.live in Hlive.
  destruct (Keyv.get _ (otpSentKey clientId) s) as [o s0]. simpl in Hlive.
  subst o. simpl. unfold generate. simpl. rewrite Hgen. simpl.
  unfold call. simpl. fold params. rewrite Hsend. simpl.
  rewrite <- app_assoc. reflexivity.
Qed.

(** C7. The resend throttle.  While the cooldown mark of a subject
    reads as live (and truthy, as the [Date.now()] it holds is),
    [sendOtp] is rejected with the 403 rate-limit error and the world
    is left as it was, whatever else the store holds: no code is
    generated, stored or sent.  When no mark reads as live, and the
    broker accepts the message, [sendOtp] resolves with the generated
    code, the store then holds [{clientId}] under the code with the
    code ttl and the mark under [otp_sent_<clientId>] with the resend
    ttl, and exactly the generator and the broker were called.  A mark
    so written refuses every further request for the subject until the
    clock passes its own expiry, whatever has become of the code. *)
Theorem sendOtp_throttle (clientId : Z) (agentId : option Z) :
  (∀ (w : World Ext) (v : Keyv.Value),
      Keyv.live (Date_now P (ext w)) (otpSentKey clientId) (db w) = Some v →
      value_truthy v = true →
      sendOtp P this clientId agentId w = (Rejected otp_rate_limited, w))
  ∧ error_status otp_rate_limited = Some 403
  ∧ (∀ (w : World Ext) (c : string) (x1 x2 : Ext),
        Keyv.live (Date_now P (ext w)) (otpSentKey clientId) (db w) = None →
        codegen_generate this (ext w) = (c, x1) →
        c ≠ otpSentKey clientId →
        let params :=
          mkSend (default (repliers_clients_defaultAgentId (cfg this)) agentId)
                 clientId "agent" (formatOtpMessageContent this c) in
        messages_send this params x1 = (inr tt, x2) →
        let t := Date_now P x1 in
        let s :=
          Keyv.set t (otpSentKey clientId) (Keyv.Num t)
                   (auth_otp_resend_ttl_ms (cfg this))
                   (Keyv.set t c (Keyv.OtpItem clientId) (auth_otp_ttl_ms (cfg this))
                             (Keyv.get (Date_now P (ext w)) (otpSentKey clientId) (db w)).2) in
        let mark := Keyv.mkEntry (Keyv.Num t)
                                 (Keyv.expiry t (auth_otp_resend_ttl_ms (cfg this))) in
          sendOtp P this clientId agentId w
            = (Resolved c,
               mkWorld s x2 (trace w ++ [CodegenGenerate c; MessagesSend params]))
          ∧ s !! c = Some (Keyv.mkEntry (Keyv.OtpItem clientId)
                                        (Keyv.expiry t (auth_otp_ttl_ms (cfg this))))
          ∧ s !! otpSentKey clientId = Some mark
          ∧ (∀ (w' : World Ext) (again : option Z),
                t ≠ 0 →
                db w' !! otpSentKey clientId = Some mark →
                Keyv.expired (Date_now P (ext w')) mark = false →
                sendOtp P this clientId again w' = (Rejected otp_rate_limited, w'))).
Proof.
  split; [|split; [reflexivity|]].
  - intros w v. apply sendOtp_closed.
  - intros w c x1 x2 Hlive Hgen Hne params Hsend t s' mark.
    split; [by apply sendOtp_open|].
    subst s'. unfold Keyv.set. split; [|split].
    + rewrite lookup_insert_ne by done. by rewrite lookup_insert_eq.
    + by rewrite lookup_insert_eq.
    + intros w' again Ht Hmark Halive.
      apply (sendOtp_closed clientId again w' (Keyv.Num t)).
      * unfold Keyv.live. by rewrite (keyv_get_live _ _ _ _ Hmark Halive).
      * simpl. unfold num_truthy. by destruct (Z.eqb_spec t 0).
Qed.

(** C8, as the code has it.  [generateToken] asks the ACL repository
    exactly when persistence is on.  Then the role it signs is the ACL
    record's role if that is there, else the role in the claims, else
    [UserRole.User], and the expiry is the explicit one if given, else
    that role's override expiry if configured, else the default.  With
    persistence off no lookup is made and the payload is signed as it
    came (with the caller's role claim, or with none: the default role
    is not filled in), under the explicit expiry if given, else the
    default one. *)
Theorem generateToken_role_and_expiry (payload : JwtPayload)
        (explicit : option string) (w : World Ext) (acl : option Acl)
        (x1 : Ext) (u : string) (x2 x3 : Ext) (tok : string) :
  let persist := negb (app_disable_persistence (cfg this)) in
  (persist = true →
   aclRepo_getUserAcl this (claims payload !! "email") (ext w) = (inr acl, x1)) →
  (persist = false → x1 = ext w) →
  crypto_randomUUID P x1 = (u, x2) →
  let role := effective_role L acl payload in
  let signed := if persist then set_role payload role else payload in
  let expire :=
    if persist then
      or_else (getRoleOverride this role ≫= js_expire)
                            (auth_jwt_expire (cfg this))
    else auth_jwt_expire (cfg this) in
  let options :=
    mkSignOptions "RS256" (or_else explicit expire)
                  (auth_jwt_issuer (cfg this)) u in
  jwt_sign P signed (keys_private this) options x2 = (inr tok, x3) →
  generateToken P L this payload explicit w
    = (Resolved tok,
       mkWorld (db w) x3
               (trace w
                ++ (if persist then [AclGetUserAcl (claims payload !! "email")] else [])
                ++ [JwtSign signed options]))
  ∧ (∀ a, acl = Some a → acl_role a ≠ "" → role = JStr (acl_role a))
  ∧ ((acl = None ∨ ∃ a, acl = Some a ∧ acl_role a = "") →
     (∀ r, claims payload !! "role" = Some r → truthy r = true → role = r)
     ∧ (truthy_opt (claims payload !! "role") = false →
        role = JStr (UserRole_User L)))
  ∧ (∀ ex, explicit = Some ex → ex ≠ "" → expiresIn options = ex)
  ∧ (explicit = None → expiresIn options = expire)
  ∧ (persist = true →
     (∀ ex, getRoleOverride this role ≫= js_expire = Some ex → ex ≠ "" → expire = ex)
     ∧ (getRoleOverride this role ≫= js_expire = None →
        expire = auth_jwt_expire (cfg this)))
  ∧ (persist = false →
     signed = payload ∧ expire = auth_jwt_expire (cfg this)
     ∧ claims signed !! "role" = claims payload !! "role").
Proof.
  intros persist Hacl Hoff Hu role signed expire options Hs.
  split.
  - pose proof (generateToken_run P L this payload explicit w acl x1 u x2 x3
                                  (inr tok) Hacl Hoff Hu) as Hrun.
    simpl in Hrun. unfold settle in Hrun.
    subst options expire signed role persist.
    destruct (negb (app_disable_persistence (cfg this))); simpl in *;
      by rewrite Hrun.
  - repeat split.
    + intros a -> Ha. subst role. unfold effective_role.
      by rewrite str_truthy_ne.
    + intros r Hr Ht. subst role. unfold effective_role. rewrite Hr, Ht.
      destruct H as [-> | (a & -> & ->)]; done.
    + intros Hf. subst role. unfold effective_role.
      assert (match claims payload !! "role" with
              | Some r => if truthy r then r else JStr (UserRole_User L)
              | None => JStr (UserRole_User L)
              end = JStr (UserRole_User L)) as ->.
      { destruct (claims payload !! "role") as [r|]; [|done].
        simpl in Hf. by rewrite Hf. }
      destruct H as [-> | (a & -> & ->)]; done.
    + intros ex -> Hex. subst options. simpl. by apply or_else_Some.
    + intros ->. by subst options.
    + intros ex Hex Hne. subst expire. rewrite H, Hex. by apply or_else_Some.
    + intros Hnone. subst expire. by rewrite H, Hnone.
    + subst signed. by rewrite H.
    + subst expire. by rewrite H.
    + subst signed. by rewrite H.
Qed.

Lemma lacks_Some (n : Z) : n ≠ 0 → lacks (Some n) = false.
Proof.
  intros H. unfold lacks, num_truthy.
  destruct (Z.eqb_spec n 0); [done|reflexivity].
Qed.

Lemma revoke_previous_run (jti : option string) (exp : Z) (w : World Ext) (x : Ext) :
  (∀ j, jti = Some j → j ≠ "" →
        blocklistRepository_create this j exp (ext w) = (inr tt, x)) →
  (revocation jti exp = [] → x = ext w) →
  revoke_previous this jti exp w
    = (Resolved tt, mkWorld (db w) x (trace w ++ revocation jti exp)).
Proof.
  intros Hcall Hnone. unfold revoke_previous, revocation in *.
  destruct w as [s x0 tr]. simpl in *.
  destruct jti as [j|].
  - destruct (str_truthy j) eqn:Hj.
    + unfold call. simpl. rewrite (Hcall j eq_refl); [done|].
      intros ->. done.
    + unfold ret. rewrite Hnone by done. by rewrite app_nil_r.
  - unfold ret. rewrite Hnone by done. by rewrite app_nil_r.
Qed.

(** C3, as the code has it.  For claims with non-zero [iat] and [exp],
    and with token issuance and the blocklist answering, [refresh]
    signs the old claims without [iat], [exp], [iss] and [jti] (their
    [role] settled anew by token issuance when persistence is on,
    every other claim as it was) under the explicit expiry
    "<exp - iat>s", then revokes the old [jti] with the old [exp] if
    the claims carried a non-empty one (no call otherwise), and
    resolves with the new token. *)
Theorem refresh_resigns (payload : JwtPayload) (w : World Ext) (i e : Z)
        (acl : option Acl) (x1 : Ext) (u : string) (x2 x3 x4 : Ext) (tok : string) :
  iat payload = Some i → exp payload = Some e → i ≠ 0 → e ≠ 0 →
  let persist := negb (app_disable_persistence (cfg this)) in
  let newPayload := mkPayload None None None None (claims payload) in
  (persist = true →
   aclRepo_getUserAcl this (claims payload !! "email") (ext w) = (inr acl, x1)) →
  (persist = false → x1 = ext w) →
  crypto_randomUUID P x1 = (u, x2) →
  let signed :=
    if persist then set_role newPayload (effective_role L acl newPayload)
    else newPayload in
  let options :=
    mkSignOptions "RS256" (num_toString (e - i) +:+ "s")
                  (auth_jwt_issuer (cfg this)) u in
  jwt_sign P signed (keys_private this) options x2 = (inr tok, x3) →
  (∀ j, jti payload = Some j → j ≠ "" →
        blocklistRepository_create this j e x3 = (inr tt, x4)) →
  (revocation (jti payload) e = [] → x4 = x3) →
  refresh P L this payload w
    = (Resolved tok,
       mkWorld (db w) x4
               (trace w
                ++ (if persist then [AclGetUserAcl (claims payload !! "email")] else [])
                ++ [JwtSign signed options]
                ++ revocation (jti payload) e))
  ∧ iat signed = None ∧ exp signed = None ∧ iss signed = None ∧ jti signed = None
  ∧ (∀ k, k ≠ "role" → claims signed !! k = claims payload !! k)
  ∧ (persist = false → claims signed = claims payload).
Proof.
  intros Hi He Hi0 He0 persist newPayload Hacl Hoff Hu signed options Hs Hrev Hnorev.
  split.
  - unfold refresh. rewrite Hi, He, (lacks_Some _ Hi0), (lacks_Some _ He0). simpl.
    assert (generateToken P L this newPayload
              (Some (num_toString (e - i) +:+ "s")) w
            = (Resolved tok,
               mkWorld (db w) x3
                 (trace w
                  ++ (if persist then [AclGetUserAcl (claims payload !! "email")] else [])
                  ++ [JwtSign signed options]))) as Hgen.
    { pose proof (generateToken_run P L this newPayload
                    (Some (num_toString (e - i) +:+ "s")) w acl x1 u x2 x3
                    (inr tok) Hacl Hoff Hu) as Hrun.
      cbv zeta in Hrun. unfold settle in Hrun.
      rewrite or_else_seconds in Hrun.
      subst signed options persist.
      destruct (negb (app_disable_persistence (cfg this))); by apply Hrun. }
    unfold bind. fold newPayload. rewrite Hgen.
    rewrite revoke_previous_run with (x := x4); [|done|done].
    unfold ret. simpl. by rewrite <- !app_assoc.
  - subst signed. destruct persist; simpl; repeat split; try done.
    intros k Hk. by rewrite lookup_insert_ne.
Qed.

(** C6, as the code has it.  [embedLogin] checks the signature over the
    context with the system key first: on a mismatch it is rejected
    with 401 and the world is left as it was (nothing decoded into a
    token, no collaborator called).  On a match it decodes the context
    and asks token issuance for a token for the embedded e-mail with
    role [UserRole.Agent]; the signed role is the ACL record's role
    when persistence is on and that e-mail has one, and [Agent]
    otherwise.  It resolves with that token and [calcSignature] of the
    person id under the agents' salt; the registry is not called. *)
Theorem embedLogin_verifies_first (params : AuthEmbedDto) (w : World Ext) :
  (isFromFollowUpBoss L (context params) (signature params)
                      (boss_system_key (cfg this)) = false →
   embedLogin P L this params w
     = (Rejected (ApiError "Invalid signature" (Some 401)), w)
   ∧ error_status (ApiError "Invalid signature" (Some 401)) = Some 401)
  ∧ (∀ (decoded : BossEmbedContext) (acl : option Acl) (x1 : Ext) (u : string)
       (x2 x3 : Ext) (tok : string),
        isFromFollowUpBoss L (context params) (signature params)
                           (boss_system_key (cfg this)) = true →
        decode_context P (context params) = inr decoded →
        UserRole_Agent L ≠ "" →
        let persist := negb (app_disable_persistence (cfg this)) in
        let email := Some (JStr (boss_user_email decoded)) in
        let payload :=
          mkPayload None None None None
                    (<["email" := JStr (boss_user_email decoded)]>
                       (<["role" := JStr (UserRole_Agent L)]> ∅)) in
        (persist = true → aclRepo_getUserAcl this email (ext w) = (inr acl, x1)) →
        (persist = false → x1 = ext w) →
        crypto_randomUUID P x1 = (u, x2) →
        let role :=
          if persist then
            match acl with
            | Some a => if str_truthy (acl_role a) then JStr (acl_role a)
                        else JStr (UserRole_Agent L)
            | None => JStr (UserRole_Agent L)
            end
          else JStr (UserRole_Agent L) in
        let signed := if persist then set_role payload role else payload in
        let expire :=
          if persist then
            or_else (getRoleOverride this role ≫= js_expire)
                                  (auth_jwt_expire (cfg this))
          else auth_jwt_expire (cfg this) in
        let options :=
          mkSignOptions "RS256" expire (auth_jwt_issuer (cfg this)) u in
        jwt_sign P signed (keys_private this) options x2 = (inr tok, x3) →
        embedLogin P L this params w
          = (Resolved (mkEmbedResponse tok
                         (calcSignature L (num_toString (boss_person_id decoded))
                                        (auth_agents_signature_salt (cfg this)))),
             mkWorld (db w) x3
                     (trace w ++ (if persist then [AclGetUserAcl email] else [])
                      ++ [JwtSign signed options]))
        ∧ claims signed !! "email" = email
        ∧ claims signed !! "role" = Some role).
Proof.
  split.
  - intros Hbad. split; [|reflexivity].
    unfold embedLogin. by rewrite Hbad.
  - intros decoded acl x1 u x2 x3 tok Hok Hdec Hagent persist email payload
           Hacl Hoff Hu role signed expire options Hs.
    assert (effective_role L acl payload
            = match acl with
              | Some a => if str_truthy (acl_role a) then JStr (acl_role a)
                          else JStr (UserRole_Agent L)
              | None => JStr (UserRole_Agent L)
              end) as Hrole.
    { unfold effective_role. subst payload. simpl.
      rewrite lookup_insert_ne by done. rewrite lookup_insert_eq. simpl.
      fold (str_truthy (UserRole_Agent L)). by rewrite str_truthy_ne. }
    split; [|split].
    + unfold embedLogin. rewrite Hok, Hdec. simpl. unfold bind.
      pose proof (generateToken_run P L this payload None w acl x1 u x2 x3
                                    (inr tok) Hacl Hoff Hu) as Hrun.
      cbv zeta in Hrun. unfold settle in Hrun. rewrite Hrole in Hrun.
      fold payload. rewrite Hrun.
      * unfold ret. subst signed options expire role persist.
        by destruct (negb (app_disable_persistence (cfg this))).
      * subst signed options expire role persist.
        by destruct (negb (app_disable_persistence (cfg this))).
    + subst signed payload. destruct persist; simpl.
      * rewrite lookup_insert_ne by done. by rewrite lookup_insert_eq.
      * by rewrite lookup_insert_eq.
    + subst signed payload role. destruct persist; simpl.
      * by rewrite lookup_insert_eq.
      * rewrite lookup_insert_ne by done. by rewrite lookup_insert_eq.
Qed.

(** C5, as the code has it.  With the e-mail token endpoint switched
    off, [useRepliersToken] is rejected with 400 before anything is
    looked up.  With it on: no message for the token gives 403; a
    message older than the expiry window gives the plain 403 expiry
    with nothing sent when auto-resend is off; with auto-resend on it
    goes through [sendOtp] for the subject of the message, which is
    refused with the 403 rate limit (nothing sent) while that
    subject's cooldown mark is live, and otherwise sends exactly one
    new code to that subject, after which the call is rejected with
    412; a message within the window gives the token and the profile
    of that subject, as [useOtp] does. *)
Theorem useRepliersToken_outcomes (params : AuthRepliersTokenDto) (w : World Ext) :
  (auth_emailtoken_enabled (cfg this) = false →
   useRepliersToken P L this params w
     = (Rejected (ApiError "Endpoint is not activated" (Some 400)), w))
  ∧ (auth_emailtoken_enabled (cfg this) = true →
     ∀ x1, messages_get this (token params) (ext w) = (inr [], x1) →
           useRepliersToken P L this params w
             = (Rejected (ApiError "Email token is invalid" (Some 403)),
                mkWorld (db w) x1 (trace w ++ [MessagesGet (token params)])))
  ∧ (auth_emailtoken_enabled (cfg this) = true →
     ∀ (m : Message) (rest : list Message) (x1 : Ext) (sent window : Z),
       messages_get this (token params) (ext w) = (inr (m :: rest), x1) →
       Date_parse P (delivery_sentDateTime m) = Some sent →
       ms P (auth_emailtoken_expire (cfg this)) = Some window →
       let w1 := mkWorld (db w) x1 (trace w ++ [MessagesGet (token params)]) in
       let elapsed := Date_now P x1 - sent in
       let mark := Keyv.live (Date_now P x1) (otpSentKey (msg_clientId m)) (db w) in
       (window < elapsed → auth_emailtoken_auto_otp (cfg this) = false →
        useRepliersToken P L this params w
          = (Rejected (ApiError "Email token has expired" (Some 403)), w1))
       ∧ (window < elapsed → auth_emailtoken_auto_otp (cfg this) = true →
          ∀ v, mark = Some v → value_truthy v = true →
               useRepliersToken P L this params w = (Rejected otp_rate_limited, w1))
       ∧ (window < elapsed → auth_emailtoken_auto_otp (cfg this) = true →
          mark = None →
          ∀ (c : string) (x2 x3 : Ext),
            codegen_generate this x1 = (c, x2) →
            let send :=
              mkSend (msg_agentId m) (msg_clientId m) "agent"
                     (formatOtpMessageContent this c) in
            messages_send this send x2 = (inr tt, x3) →
            ∃ s : Keyv.Store,
              useRepliersToken P L this params w
                = (Rejected (ApiError "Email token has expired. Please check your email/text for a new authentication link"
                                      (Some 412)),
                   mkWorld s x3
                           (trace w ++ [MessagesGet (token params);
                                        CodegenGenerate c; MessagesSend send]))
              ∧ s !! otpSentKey (msg_clientId m)
                = Some (Keyv.mkEntry
                          (Keyv.Num (Date_now P x2))
                          (Keyv.expiry (Date_now P x2)
                                       (auth_otp_resend_ttl_ms (cfg this)))))
       ∧ (elapsed ≤ window →
          ∀ (user : RplClient) (x2 : Ext) (tok : string) (w3 : World Ext),
            clients_get this (Some (msg_clientId m)) x1 = (inr user, x2) →
            generateToken P L this (client_payload user) None
                          (mkWorld (db w) x2
                                   (trace w ++ [MessagesGet (token params);
                                                ClientsGet (Some (msg_clientId m))]))
              = (Resolved tok, w3) →
            useRepliersToken P L this params w
              = (Resolved (mkTokenProfile tok (pick (client_obj user) userProfilKeys)),
                 w3))).
Proof.
  split; [|split].
  - intros Hoff. unfold useRepliersToken. by rewrite Hoff.
  - intros Hon x1 Hget. unfold useRepliersToken, bind, call.
    rewrite Hon. simpl. by rewrite Hget.
  - intros Hon m rest x1 sent window Hget Hsent Hwindow w1 elapsed mark.
    repeat split.
    + intros Hlate Hauto. apply Z.ltb_lt in Hlate.
      unfold useRepliersToken, bind, call, now. rewrite Hon. simpl.
      rewrite Hget. simpl. rewrite Hsent, Hwindow. simpl. fold elapsed.
      by rewrite Hlate, Hauto.
    + intros Hlate Hauto v Hmark Hv. apply Z.ltb_lt in Hlate.
      unfold useRepliersToken, bind, call, now. rewrite Hon. simpl.
      rewrite Hget. simpl. rewrite Hsent, Hwindow. simpl. fold elapsed.
      rewrite Hlate, Hauto.
      fold w1. by rewrite (sendOtp_closed _ _ w1 v).
    + intros Hlate Hauto Hmark c x2 x3 Hgen send Hsend. apply Z.ltb_lt in Hlate.
      unfold useRepliersToken, bind, call, now. rewrite Hon. simpl.
      rewrite Hget. simpl. rewrite Hsent, Hwindow. simpl. fold elapsed.
      rewrite Hlate, Hauto.
      fold w1.
      rewrite (sendOtp_open (msg_clientId m) (Some (msg_agentId m)) w1 c x2 x3);
        [|done|done|done].
      eexists. unfold throw. simpl. rewrite <- app_assoc.
      split; [reflexivity|]. unfold Keyv.set. apply lookup_insert_eq.
    + intros Hin user x2 tok w3 Hclient Htok.
      apply Z.ltb_ge in Hin.
      unfold useRepliersToken, bind, call, now. rewrite Hon. simpl.
      rewrite Hget. simpl. rewrite Hsent, Hwindow. simpl. fold elapsed.
      rewrite Hin. simpl.
      rewrite Hclient. rewrite <- app_assoc. simpl. by rewrite Htok.
Qed.

(** C4, as the code has it.  When Strapi registers the user and the
    registry's [create] throws an error with status 409, [signup]
    filters the registry by the e-mail.  If that finds a record, it
    updates the first one with the new names and external id, reads it
    back, and (both calls answering) resolves with Strapi's token and
    the merged profile: the conflict is absorbed.  If it finds none,
    [signup] is rejected with the 500 "User conflict but not found". *)
Theorem signup_conflict (params : UserSignupDto) (w : World Ext)
        (strapiAuth : StrapiAuthResponse) (error : ThrownError) (x1 x2 : Ext) :
  let register :=
    mkRegister (username params) (signup_email params) (signup_password params)
               (firstName params) (lastName params) in
  let create :=
    mkCreate (repliers_clients_defaultAgentId (cfg this)) (firstName params)
             (lastName params) (signup_email params) (id (user strapiAuth))
             signup_preferences true in
  let by_email := FilterByEmail (signup_email params) in
  axios_post_register P register (ext w) = (inr strapiAuth, x1) →
  clients_create this create x1 = (inl error, x2) →
  err_status error = Some 409 ∨ err_statusCode error = Some 409 →
  (∀ (existingUser : RplClient) (others : list RplClient) (userInfo : RplClient)
     (x3 x4 x5 : Ext),
      clients_filter this by_email x2 = (inr (existingUser :: others), x3) →
      let update :=
        mkUpdate (clientId existingUser) (agentId existingUser)
                 (firstName params) (lastName params) (id (user strapiAuth))
                 signup_preferences true in
      clients_update this update x3 = (inr tt, x4) →
      clients_get this (Some (clientId existingUser)) x4 = (inr userInfo, x5) →
      signup P this params w
        = (Resolved
             (mkAuthResponse
                (Some (jwt strapiAuth))
                (Some (pick (spread (client_obj userInfo)
                                    (strapi_obj (user strapiAuth)))
                            userProfilKeys))),
           mkWorld (db w) x5
                   (trace w ++ [StrapiRegister register; ClientsCreate create;
                                ClientsFilter by_email; ClientsUpdate update;
                                ClientsGet (Some (clientId existingUser))])))
  ∧ (∀ x3 : Ext,
        clients_filter this by_email x2 = (inr [], x3) →
        signup P this params w
          = (Rejected (ApiError "User conflict but not found" (Some 500)),
             mkWorld (db w) x3
                     (trace w ++ [StrapiRegister register; ClientsCreate create;
                                  ClientsFilter by_email]))).
Proof.
  intros register create by_email Hreg Hcreate Hstatus.
  assert (is_conflict (Rethrown error) = true) as Hconflict.
  { unfold is_conflict. destruct Hstatus as [-> | ->]; simpl; [done|].
    apply orb_true_r. }
  split.
  - intros existingUser others userInfo x3 x4 x5 Hfilter update Hupdate Hget.
    unfold signup, bind, try_catch, StrapiService.register, call.
    fold register. rewrite Hreg. simpl.
    unfold create_or_update, try_catch, bind, call. simpl.
    fold create. rewrite Hcreate. simpl.
    destruct (bool_decide (err_status error = Some 409)
              || bool_decide (err_statusCode error = Some 409)) eqn:Hc;
      [|simpl in Hconflict; congruence].
    simpl. fold by_email. rewrite Hfilter. simpl. fold update. rewrite Hupdate. simpl.
    rewrite Hget. unfold ret. simpl. by rewrite <- !app_assoc.
  - intros x3 Hfilter.
    unfold signup, bind, try_catch, StrapiService.register, call.
    fold register. rewrite Hreg. simpl.
    unfold create_or_update, try_catch, bind, call. simpl.
    fold create. rewrite Hcreate. simpl.
    destruct (bool_decide (err_status error = Some 409)
              || bool_decide (err_statusCode error = Some 409)) eqn:Hc;
      [|simpl in Hconflict; congruence].
    simpl. fold by_email. rewrite Hfilter. unfold throw. simpl. by rewrite <- !app_assoc.
Qed.

(** The merged profile, key by key: only allow-listed keys, Strapi's
    value where Strapi has the key, the registry's otherwise. *)
Lemma lookup_profile (registry idp : JsObject) (k : string) :
  pick (spread registry idp) userProfilKeys !! k
  = if decide (k ∈ userProfilKeys) then
      match idp !! k with
      | Some v => Some v
      | None => registry !! k
      end
    else None.
Proof.
  rewrite lookup_pick. destruct (decide (k ∈ userProfilKeys)); [|done].
  destruct (idp !! k) as [v|] eqn:Hk.
  - by apply lookup_spread_r.
  - by apply lookup_spread_l.
Qed.

(** C9. A login with a password resolves exactly when Strapi accepts
    the credentials and the registry answers the search for Strapi's
    user id, and then with Strapi's token and [pick] of the first record
    found (or none) overwritten by Strapi's user, over [userProfilKeys],
    after those two calls.  Whenever [signup] resolves, Strapi has
    answered the registration and the registry has handed over a record
    (from [create], or from [get] on the conflict path), and the profile
    returned is the same [pick] for that record.  In such a profile
    every key is allow-listed, and a key that Strapi's user has carries
    Strapi's value, whatever the registry says. *)
Theorem profile_merge :
  (∀ (params : UserSignupDto) (w w' : World Ext) (res : AuthResponseDto),
      signup P this params w = (Resolved res, w') →
      ∃ (strapiAuth : StrapiAuthResponse) (userInfo : RplClient) (x1 : Ext),
        axios_post_register P
          (mkRegister (username params) (signup_email params) (signup_password params)
                      (firstName params) (lastName params)) (ext w)
        = (inr strapiAuth, x1)
        ∧ (∃ x x', (∃ c, clients_create this c x = (inr userInfo, x'))
                   ∨ (∃ i, clients_get this i x = (inr userInfo, x')))
        ∧ res = mkAuthResponse
                  (Some (jwt strapiAuth))
                  (Some (pick (spread (client_obj userInfo)
                                      (strapi_obj (user strapiAuth)))
                              userProfilKeys)))
  ∧ (∀ (params : UserLoginDto) (pw : string) (w w' : World Ext)
       (res : AuthResponseDto),
        password params = Some pw → pw ≠ "" → identifier params ≠ "" →
        let credentials := mkStrapiLogin (identifier params) pw in
        login P this params w = (Resolved res, w')
        ↔ ∃ (strapiAuth : StrapiAuthResponse) (found : list RplClient) (x1 x2 : Ext),
            let by_id := FilterByExternalId (num_toString (id (user strapiAuth))) in
            axios_post_login P credentials (ext w) = (inr strapiAuth, x1)
            ∧ clients_filter this by_id x1 = (inr found, x2)
            ∧ res = mkAuthResponse
                      (Some (jwt strapiAuth))
                      (Some (pick (spread (match found with
                                           | c :: _ => client_obj c
                                           | [] => ∅
                                           end)
                                          (strapi_obj (user strapiAuth)))
                                  userProfilKeys))
            ∧ w' = mkWorld (db w) x2
                           (trace w ++ [StrapiLogin credentials; ClientsFilter by_id]))
  ∧ (∀ (registry idp : JsObject) (k : string),
        let profile := pick (spread registry idp) userProfilKeys in
        (is_Some (profile !! k) → k ∈ userProfilKeys)
        ∧ (∀ v, k ∈ userProfilKeys → idp !! k = Some v → profile !! k = Some v)
        ∧ (k ∈ userProfilKeys → idp !! k = None → profile !! k = registry !! k)).
Proof.
  split; [|split].
  - intros params w w' res.
    unfold signup, bind, try_catch, StrapiService.register, call.
    destruct (axios_post_register P _ (ext w)) as [[e|strapiAuth] x1] eqn:Hreg;
      simpl; [done|].
    unfold create_or_update, try_catch, bind, call. simpl.
    destruct (clients_create this _ x1) as [[e|userInfo] x2] eqn:Hcreate; simpl.
    + destruct (bool_decide (err_status e = Some 409)
                || bool_decide (err_statusCode e = Some 409)); simpl; [|done].
      destruct (clients_filter this _ x2) as [[e'|[|existingUser others]] x3];
        simpl; [done|done|].
      destruct (clients_update this _ x3) as [[e'|[]] x4]; simpl; [done|].
      destruct (clients_get this _ x4) as [[e'|userInfo] x5] eqn:Hget;
        simpl; [done|].
      unfold ret. intros [= <- <-].
      exists strapiAuth, userInfo, x1. split; [done|]. split; [|done].
      exists x4, x5. right. by eexists.
    + unfold ret. intros [= <- <-].
      exists strapiAuth, userInfo, x1. split; [done|]. split; [|done].
      exists x1, x2. left. by eexists.
  - intros params pw w w' res Hpw Hne Hid credentials.
    unfold login. rewrite Hpw, (str_truthy_ne _ Hne), (str_truthy_ne _ Hid). simpl.
    unfold loginWithStrapi, bind, try_catch, bind, StrapiService.login, call.
    fold credentials. split.
    + destruct (axios_post_login P _ (ext w)) as [[e|strapiAuth] x1] eqn:Hlogin;
        simpl; [done|].
      destruct (clients_filter this _ x1) as [[e|found] x2] eqn:Hfilter;
        simpl; [done|].
      unfold ret. intros [= <- <-].
      exists strapiAuth, found, x1, x2. simpl. by rewrite <- app_assoc.
    + intros (strapiAuth & found & x1 & x2 & Hlogin & Hfilter & -> & ->).
      rewrite Hlogin. simpl. rewrite Hfilter. simpl.
      unfold ret. by rewrite <- app_assoc.
  - intros registry idp k profile. subst profile.
    rewrite lookup_profile. repeat split.
    + destruct (decide (k ∈ userProfilKeys)); [done|]. by intros [? ?].
    + intros v Hin Hk. by rewrite decide_True, Hk.
    + intros Hin Hk. by rewrite decide_True, Hk.
Qed.

End Claims.

(** ** The claims on the concrete deployment *)

(** C1 on the deployment: the stored code is consumed once, and the second
    attempt on the resulting world is refused. *)
Lemma useOtp_single_use_witness :
  ∃ w' : World Z,
    useOtp Scenario.platform Scenario.lib Scenario.deployed (mkOtpDto "424242")
           (Scenario.world Scenario.issued 10)
    = (Resolved (mkTokenProfile ("jwt.1h." +:+ Scenario.uuid)
                                (pick (client_obj Scenario.alice) userProfilKeys)), w')
    ∧ db w' !! "424242" = None
    ∧ useOtp Scenario.platform Scenario.lib Scenario.deployed (mkOtpDto "424242") w'
      = (Rejected otp_used_or_expired, w').
Proof.
  eexists.
  pose proof (useOtp_single_use Scenario.platform Scenario.lib Scenario.deployed
                (mkOtpDto "424242") (Scenario.world Scenario.issued 10)
                (Keyv.mkEntry (Keyv.OtpItem 7) (Some 600010)) 7 Scenario.alice 10
                ("jwt.1h." +:+ Scenario.uuid) _
                eq_refl eq_refl eq_refl eq_refl eq_refl) as (Hrun & Hgone & Hagain & _).
  split; [exact Hrun|]. split; [exact Hgone|]. apply Hagain. reflexivity.
Defined.

(** C2 on the deployment: claims without [iat]. *)
Lemma refresh_without_expiration_info_witness :
  refresh Scenario.platform Scenario.lib Scenario.deployed
          (mkPayload None (Some 3700) None (Some "old-jti") ∅) (Scenario.world ∅ 10)
  = (Rejected no_expiration_info, Scenario.world ∅ 10).
Proof.
  apply (refresh_without_expiration_info Scenario.platform Scenario.lib Scenario.deployed
           (mkPayload None (Some 3700) None (Some "old-jti") ∅) (Scenario.world ∅ 10)).
  left. reflexivity.
Defined.

(** C10 on the deployment: an identifier and no password. *)
Lemma login_without_password_witness :
  login Scenario.platform Scenario.deployed (mkLoginDto "a@x.com" None)
        (Scenario.world ∅ 10)
  = (Resolved (mkAuthResponse None None), Scenario.world ∅ 10).
Proof.
  apply (login_without_password Scenario.platform Scenario.deployed
           (mkLoginDto "a@x.com" None) (Scenario.world ∅ 10) (λ _, true)).
  reflexivity.
Defined.

(** C7 on the deployment: a request at 600000 against the mark written at
    599000 is refused; on an empty store it stores the code until
    1200000 and the mark until 660000, and sends one message; a further
    request at 630000 on that store is refused. *)
Lemma sendOtp_throttle_witness :
  sendOtp Scenario.platform Scenario.deployed 7 None
          (Scenario.world Scenario.cooling 600000)
  = (Rejected otp_rate_limited, Scenario.world Scenario.cooling 600000)
  ∧ ∃ s : Keyv.Store,
      sendOtp Scenario.platform Scenario.deployed 7 None (Scenario.world ∅ 600000)
      = (Resolved "424242",
         mkWorld s 600000
                 [CodegenGenerate "424242";
                  MessagesSend
                    (mkSend 1 7 "agent"
                            (formatOtpMessageContent Scenario.deployed "424242"))])
      ∧ s !! "424242" = Some (Keyv.mkEntry (Keyv.OtpItem 7) (Some 1200000))
      ∧ s !! "otp_sent_7" = Some (Keyv.mkEntry (Keyv.Num 600000) (Some 660000))
      ∧ sendOtp Scenario.platform Scenario.deployed 7 None (Scenario.world s 630000)
        = (Rejected otp_rate_limited, Scenario.world s 630000).
Proof.
  destruct (sendOtp_throttle Scenario.platform Scenario.deployed 7 None)
    as (Hclosed & _ & Hopen).
  split.
  - apply (Hclosed (Scenario.world Scenario.cooling 600000) (Keyv.Num 599000));
      reflexivity.
  - eexists.
    destruct (Hopen (Scenario.world ∅ 600000) "424242" 600000 600000)
      as (Hrun & Hcode & Hmark & Hagain);
      [reflexivity|reflexivity| |reflexivity|].
    + apply code_not_otpSentKey. reflexivity.
    + split; [exact Hrun|]. split; [exact Hcode|]. split; [exact Hmark|].
      apply Hagain; [discriminate|exact Hmark|reflexivity].
Defined.

(** C8 on the deployment: an ACL record naming "agent" beats the claims,
    and the agents' override expiry "12h" is used. *)
Lemma generateToken_role_and_expiry_witness :
  generateToken Scenario.platform Scenario.lib (Scenario.with_acl "agent")
                Scenario.bare_claims None (Scenario.world ∅ 10)
  = (Resolved ("jwt.12h." +:+ Scenario.uuid),
     mkWorld ∅ 10
             [AclGetUserAcl (Some (JStr "a@x.com"));
              JwtSign (set_role Scenario.bare_claims (JStr "agent"))
                      (mkSignOptions "RS256" "12h" "felix" Scenario.uuid)]).
Proof.
  apply (generateToken_role_and_expiry Scenario.platform Scenario.lib
           (Scenario.with_acl "agent") Scenario.bare_claims None (Scenario.world ∅ 10)
           (Some (mkAcl "agent")) 10 Scenario.uuid 10 10 ("jwt.12h." +:+ Scenario.uuid)).
  - reflexivity.
  - discriminate.
  - reflexivity.
  - reflexivity.
Defined.

(** C8 as stated fails with persistence off: claims without a role are
    signed without a role, not with the default role "user".  It also
    fails for a call with an explicit expiry: the agents' override "12h"
    is configured, and the token is signed for the explicit "90s". *)
Lemma generateToken_stateless_counterexample :
  (app_disable_persistence (cfg Scenario.stateless) = true
   ∧ generateToken Scenario.platform Scenario.lib Scenario.stateless
                   Scenario.bare_claims None (Scenario.world ∅ 10)
     = (Resolved ("jwt.1h." +:+ Scenario.uuid),
        mkWorld ∅ 10
                [JwtSign Scenario.bare_claims
                         (mkSignOptions "RS256" "1h" "felix" Scenario.uuid)])
   ∧ claims Scenario.bare_claims !! "role" = None
   ∧ claims Scenario.bare_claims !! "role" ≠ Some (JStr (UserRole_User Scenario.lib)))
  ∧ (getRoleOverride (Scenario.with_acl "agent") (JStr "agent") ≫= js_expire
     = Some "12h"
     ∧ generateToken Scenario.platform Scenario.lib (Scenario.with_acl "agent")
                     Scenario.bare_claims (Some "90s") (Scenario.world ∅ 10)
       = (Resolved ("jwt.90s." +:+ Scenario.uuid),
          mkWorld ∅ 10
                  [AclGetUserAcl (Some (JStr "a@x.com"));
                   JwtSign (set_role Scenario.bare_claims (JStr "agent"))
                           (mkSignOptions "RS256" "90s" "felix" Scenario.uuid)])).
Proof. repeat split; try reflexivity. discriminate. Qed.

(** C3 on the deployment: claims issued at 100 and expiring at 3700 are
    signed again for "3600s", the old [jti] is revoked until 3700. *)
Lemma refresh_resigns_witness :
  refresh Scenario.platform Scenario.lib Scenario.deployed Scenario.old_claims
          (Scenario.world ∅ 10)
  = (Resolved ("jwt.3600s." +:+ Scenario.uuid),
     mkWorld ∅ 10
             [AclGetUserAcl (Some (JStr "a@x.com"));
              JwtSign (set_role (mkPayload None None None None
                                           (claims Scenario.old_claims))
                                (JStr "user"))
                      (mkSignOptions "RS256" "3600s" "felix" Scenario.uuid);
              BlocklistCreate "old-jti" 3700]).
Proof.
  apply (refresh_resigns Scenario.platform Scenario.lib Scenario.deployed
           Scenario.old_claims (Scenario.world ∅ 10) 100 3700 None 10
           Scenario.uuid 10 10 10 ("jwt.3600s." +:+ Scenario.uuid)).
  - reflexivity.
  - reflexivity.
  - discriminate.
  - discriminate.
  - reflexivity.
  - discriminate.
  - reflexivity.
  - reflexivity.
  - intros j [= <-] _. reflexivity.
  - discriminate.
Defined.

(** C3 as stated fails when the ACL record has moved on: the old claims
    say role "user", the ACL repository now says "admin", and the new
    token is signed with "admin": its payload is not the old claims
    minus [iat], [exp], [iss] and [jti].  It also fails for claims whose
    [iat] is there but zero: they are refused as lacking it. *)
Lemma refresh_role_counterexample :
  let stripped := mkPayload None None None None (claims Scenario.old_claims) in
  let signed := set_role stripped (JStr "admin") in
  let epoch := mkPayload (Some 0) (Some 3600) (Some "felix") (Some "old-jti")
                         (claims Scenario.old_claims) in
  (refresh Scenario.platform Scenario.lib (Scenario.with_acl "admin")
           Scenario.old_claims (Scenario.world ∅ 10)
   = (Resolved ("jwt.3600s." +:+ Scenario.uuid),
      mkWorld ∅ 10
              [AclGetUserAcl (Some (JStr "a@x.com"));
               JwtSign signed (mkSignOptions "RS256" "3600s" "felix" Scenario.uuid);
               BlocklistCreate "old-jti" 3700])
   ∧ claims Scenario.old_claims !! "role" = Some (JStr "user")
   ∧ claims signed !! "role" = Some (JStr "admin")
   ∧ signed ≠ stripped)
  ∧ (iat epoch = Some 0 ∧ exp epoch = Some 3600
     ∧ refresh Scenario.platform Scenario.lib Scenario.deployed epoch
               (Scenario.world ∅ 10)
       = (Rejected no_expiration_info, Scenario.world ∅ 10)).
Proof.
  repeat split; try reflexivity.
  intros H. apply (f_equal (λ p, claims p !! "role")) in H. discriminate H.
Qed.

(** C6 on the deployment: a good signature and no ACL record give an
    "agent" token under the agents' expiry and the derived signature. *)
Lemma embedLogin_verifies_first_witness :
  embedLogin Scenario.platform Scenario.lib Scenario.deployed Scenario.embed
             (Scenario.world ∅ 10)
  = (Resolved (mkEmbedResponse ("jwt.12h." +:+ Scenario.uuid) "salt:42"),
     mkWorld ∅ 10
             [AclGetUserAcl (Some (JStr "agent@x.com"));
              JwtSign (set_role
                         (mkPayload None None None None
                                    (<["email" := JStr "agent@x.com"]>
                                       (<["role" := JStr "agent"]> ∅)))
                         (JStr "agent"))
                      (mkSignOptions "RS256" "12h" "felix" Scenario.uuid)]).
Proof.
  apply (proj2 (embedLogin_verifies_first Scenario.platform Scenario.lib
                  Scenario.deployed Scenario.embed (Scenario.world ∅ 10))
               (mkBoss "agent@x.com" 42) None 10 Scenario.uuid 10 10
               ("jwt.12h." +:+ Scenario.uuid)).
  - reflexivity.
  - reflexivity.
  - discriminate.
  - reflexivity.
  - discriminate.
  - reflexivity.
  - reflexivity.
Defined.

(** C6 as stated fails when the embedded e-mail has an ACL record: the
    token asked for with role "agent" is signed with the record's role,
    here "user". *)
Lemma embedLogin_acl_counterexample :
  let signed :=
    set_role (mkPayload None None None None
                        (<["email" := JStr "agent@x.com"]>
                           (<["role" := JStr (UserRole_Agent Scenario.lib)]> ∅)))
             (JStr "user") in
  isFromFollowUpBoss Scenario.lib (context Scenario.embed) (signature Scenario.embed)
                     (boss_system_key (cfg (Scenario.with_acl "user"))) = true
  ∧ embedLogin Scenario.platform Scenario.lib (Scenario.with_acl "user") Scenario.embed
               (Scenario.world ∅ 10)
    = (Resolved (mkEmbedResponse ("jwt.1h." +:+ Scenario.uuid) "salt:42"),
       mkWorld ∅ 10
               [AclGetUserAcl (Some (JStr "agent@x.com"));
                JwtSign signed (mkSignOptions "RS256" "1h" "felix" Scenario.uuid)])
  ∧ claims signed !! "role" = Some (JStr "user")
  ∧ claims signed !! "role" ≠ Some (JStr (UserRole_Agent Scenario.lib)).
Proof. repeat split; try reflexivity. discriminate. Qed.

(** C5 on the deployment: a message sent at the epoch, presented at
    600000 against a window of 300000 with auto-resend on and no
    cooldown mark, is answered with 412 after exactly one new send to
    client 7, whose cooldown mark is then set. *)
Lemma useRepliersToken_outcomes_witness :
  ∃ s : Keyv.Store,
    s !! "otp_sent_7" = Some (Keyv.mkEntry (Keyv.Num 600000) (Some 660000)) ∧
    useRepliersToken Scenario.platform Scenario.lib
                     (Scenario.mailed true [Scenario.old_message])
                     (mkTokenDto "6f1d2c3b") (Scenario.world ∅ 600000)
    = (Rejected (ApiError "Email token has expired. Please check your email/text for a new authentication link"
                          (Some 412)),
       mkWorld s 600000
               [MessagesGet "6f1d2c3b"; CodegenGenerate "424242";
                MessagesSend
                  (mkSend 1 7 "agent"
                          (formatOtpMessageContent
                             (Scenario.mailed true [Scenario.old_message]) "424242"))]).
Proof.
  destruct (useRepliersToken_outcomes Scenario.platform Scenario.lib
              (Scenario.mailed true [Scenario.old_message])
              (mkTokenDto "6f1d2c3b") (Scenario.world ∅ 600000))
    as (_ & _ & Hfound).
  destruct (Hfound eq_refl Scenario.old_message [] 600000 0 300000
                   eq_refl eq_refl eq_refl)
    as (_ & _ & Hresend & _).
  destruct (Hresend eq_refl eq_refl eq_refl "424242" 600000 600000 eq_refl eq_refl)
    as (s & Hrun & Hmark).
  exists s. split; [exact Hmark|exact Hrun].
Defined.

(** C5 as stated fails twice.  With the endpoint switched off, a token
    that matches no message is answered with 400, not 403.  With the
    endpoint on, auto-resend on and the message ten minutes old against
    a five-minute window, a live cooldown mark of the subject makes the
    answer the 403 rate limit, not 412, and nothing is sent. *)
Lemma useRepliersToken_counterexample :
  (messages_get (Scenario.mailed false []) "6f1d2c3b" 600000 = (inr [], 600000)
   ∧ useRepliersToken Scenario.platform Scenario.lib (Scenario.mailed false [])
                      (mkTokenDto "6f1d2c3b") (Scenario.world ∅ 600000)
     = (Rejected (ApiError "Endpoint is not activated" (Some 400)),
        Scenario.world ∅ 600000))
  ∧ (auth_emailtoken_auto_otp (cfg (Scenario.mailed true [Scenario.old_message])) = true
     ∧ ms Scenario.platform
          (auth_emailtoken_expire (cfg (Scenario.mailed true [Scenario.old_message])))
       = Some 300000
     ∧ Date_parse Scenario.platform (delivery_sentDateTime Scenario.old_message)
       = Some 0
     ∧ useRepliersToken Scenario.platform Scenario.lib
                        (Scenario.mailed true [Scenario.old_message])
                        (mkTokenDto "6f1d2c3b")
                        (Scenario.world Scenario.cooling 600000)
       = (Rejected otp_rate_limited,
          mkWorld Scenario.cooling 600000 [MessagesGet "6f1d2c3b"])
     ∧ error_status otp_rate_limited = Some 403).
Proof. repeat split; reflexivity. Qed.

(** C4 on the deployment: [create] answers 409, the registry finds the
    record by e-mail, and [signup] resolves after updating it and
    reading it back. *)
Lemma signup_conflict_witness :
  signup Scenario.platform (Scenario.conflicting [Scenario.alice]) Scenario.new_signup
         (Scenario.world ∅ 10)
  = (Resolved
       (mkAuthResponse
          (Some "strapi.jwt")
          (Some (pick (spread (client_obj Scenario.alice)
                              (strapi_obj (user Scenario.registered)))
                      userProfilKeys))),
     mkWorld ∅ 10
             [StrapiRegister (mkRegister "al" "a@x.com" "secret1" "Alice" "Liddell");
              ClientsCreate (mkCreate 1 "Alice" "Liddell" "a@x.com" 31
                                      signup_preferences true);
              ClientsFilter (FilterByEmail "a@x.com");
              ClientsUpdate (mkUpdate 7 1 "Alice" "Liddell" 31 signup_preferences true);
              ClientsGet (Some 7)]).
Proof.
  apply (proj1 (signup_conflict Scenario.platform (Scenario.conflicting [Scenario.alice])
                  Scenario.new_signup (Scenario.world ∅ 10) Scenario.registered
                  Scenario.conflict 10 10 eq_refl eq_refl (or_introl eq_refl))
               Scenario.alice [] Scenario.alice 10 10 10 eq_refl eq_refl eq_refl).
Defined.

(** C4 as stated fails when the look-up by e-mail finds nothing: Strapi
    has registered the user, [create] has answered 409, and [signup] is
    rejected with a 500 that names the conflict. *)
Lemma signup_conflict_counterexample :
  axios_post_register Scenario.platform
                      (mkRegister "al" "a@x.com" "secret1" "Alice" "Liddell") 10
  = (inr Scenario.registered, 10)
  ∧ clients_create (Scenario.conflicting [])
                   (mkCreate 1 "Alice" "Liddell" "a@x.com" 31 signup_preferences true) 10
    = (inl Scenario.conflict, 10)
  ∧ err_status Scenario.conflict = Some 409
  ∧ signup Scenario.platform (Scenario.conflicting []) Scenario.new_signup
           (Scenario.world ∅ 10)
    = (Rejected (ApiError "User conflict but not found" (Some 500)),
       mkWorld ∅ 10
               [StrapiRegister (mkRegister "al" "a@x.com" "secret1" "Alice" "Liddell");
                ClientsCreate (mkCreate 1 "Alice" "Liddell" "a@x.com" 31
                                        signup_preferences true);
                ClientsFilter (FilterByEmail "a@x.com")]).
Proof. repeat split; reflexivity. Qed.

(** C9 on the deployment: the profile of a fresh signup has Strapi's
    "username" although the registry record has one too, the registry's
    "clientId", and no "fname"; a password login resolves after the two
    calls with Strapi's "email" although the registry record has another,
    the registry's "username", which Strapi's login answer lacks, and no
    "agentId". *)
Lemma profile_merge_witness :
  ∃ profile session : JsObject,
    (signup Scenario.platform Scenario.deployed Scenario.new_signup
            (Scenario.world ∅ 10)).1
    = Resolved (mkAuthResponse (Some "strapi.jwt") (Some profile))
    ∧ profile = pick (spread (client_obj Scenario.alice)
                             (strapi_obj (user Scenario.registered)))
                     userProfilKeys
    ∧ profile !! "username" = Some (JStr "al")
    ∧ profile !! "clientId" = Some (JNum 7)
    ∧ profile !! "fname" = None
    ∧ login Scenario.platform
            (Scenario.service (Scenario.configure false true true) None
                              (inr Scenario.alice) [Scenario.alice] [])
            (mkLoginDto "al@x.com" (Some "secret1")) (Scenario.world ∅ 10)
      = (Resolved (mkAuthResponse (Some "strapi.jwt") (Some session)),
         mkWorld ∅ 10 [StrapiLogin (mkStrapiLogin "al@x.com" "secret1");
                       ClientsFilter (FilterByExternalId "31")])
    ∧ session !! "email" = Some (JStr "al@x.com")
    ∧ session !! "username" = Some (JStr "registry-name")
    ∧ session !! "agentId" = None.
Proof.
  destruct (profile_merge Scenario.platform Scenario.deployed)
    as (Hsignup & _ & Hkeys).
  destruct (Hsignup Scenario.new_signup (Scenario.world ∅ 10) _ _ eq_refl)
    as (strapiAuth & userInfo & x1 & Hreg & _ & Hres).
  destruct (profile_merge Scenario.platform
              (Scenario.service (Scenario.configure false true true) None
                                (inr Scenario.alice) [Scenario.alice] []))
    as (_ & Hlogin & _).
  set (logged := mkStrapiAuth "strapi.jwt"
                   (mkStrapiUser 31 (<["email" := JStr "al@x.com"]>
                                       (<["confirmed" := JBool true]> ∅)))).
  exists (pick (spread (client_obj Scenario.alice)
                       (strapi_obj (user Scenario.registered)))
               userProfilKeys),
         (pick (spread (client_obj Scenario.alice) (strapi_obj (user logged)))
               userProfilKeys).
  split; [reflexivity|]. split; [reflexivity|].
  pose proof (Hkeys (client_obj Scenario.alice)
                    (strapi_obj (user Scenario.registered))) as Hlaw.
  pose proof (Hkeys (client_obj Scenario.alice) (strapi_obj (user logged))) as Hlaw'.
  cbv zeta in Hlaw, Hlaw'.
  split; [|split; [|split; [|split; [|split; [|split]]]]].
  - apply (proj1 (proj2 (Hlaw "username"))); [|reflexivity].
    unfold userProfilKeys. rewrite !elem_of_cons. tauto.
  - rewrite (proj2 (proj2 (Hlaw "clientId"))); [reflexivity| |reflexivity].
    unfold userProfilKeys. rewrite !elem_of_cons. tauto.
  - destruct (_ !! "fname") eqn:Hf; [|reflexivity].
    assert ("fname" ∈ userProfilKeys) as Hin by (apply (Hlaw "fname"); by eexists).
    unfold userProfilKeys in Hin. rewrite !elem_of_cons in Hin.
    rewrite elem_of_nil in Hin. intuition discriminate.
  - apply (Hlogin (mkLoginDto "al@x.com" (Some "secret1")) "secret1"
                  (Scenario.world ∅ 10)); [reflexivity|discriminate|discriminate|].
    exists logged, [Scenario.alice], 10, 10. repeat split.
  - apply (proj1 (proj2 (Hlaw' "email"))); [|reflexivity].
    unfold userProfilKeys. rewrite !elem_of_cons. tauto.
  - rewrite (proj2 (proj2 (Hlaw' "username"))); [reflexivity| |reflexivity].
    unfold userProfilKeys. rewrite !elem_of_cons. tauto.
  - destruct (_ !! "agentId") eqn:Hf; [|reflexivity].
    assert ("agentId" ∈ userProfilKeys) as Hin by (apply (Hlaw' "agentId"); by eexists).
    unfold userProfilKeys in Hin. rewrite !elem_of_cons in Hin.
    rewrite elem_of_nil in Hin. intuition discriminate.
Defined.


(** * Further behaviour of the service *)

Local Arguments pick : simpl never.

(** ** The OTP store between [sendOtp] and [useOtp] *)

Section OtpStore.
Context {Ext : Type} (P : Platform Ext) (L : Lib) (this : AuthService Ext).

Lemma otpSentKey_inj (a b : Z) : otpSentKey a = otpSentKey b → a = b.
Proof.
  unfold otpSentKey, num_toString. simpl. intros [= H].
  change (pretty a = pretty b) in H. by apply (inj pretty) in H.
Qed.

(** What [sendOtp] has written once the code generator has answered:
    the same store whether the broker then accepts the message or not. *)
Lemma sendOtp_writes (clientId : Z) (agentId : option Z) (w : World Ext)
      (c : string) (x1 x2 : Ext) (sent : ThrownError + unit) :
  throttled P clientId w = false →
  codegen_generate this (ext w) = (c, x1) →
  let params :=
    mkSend (default (repliers_clients_defaultAgentId (cfg this)) agentId)
           clientId "agent" (formatOtpMessageContent this c) in
  messages_send this params x1 = (sent, x2) →
  let t := Date_now P x1 in
  sendOtp P this clientId agentId w
    = (match sent with
       | inl e => Rejected (Rethrown e)
       | inr _ => Resolved c
       end,
       mkWorld (Keyv.set t (otpSentKey clientId) (Keyv.Num t)
                  (auth_otp_resend_ttl_ms (cfg this))
                  (Keyv.set t c (Keyv.OtpItem clientId) (auth_otp_ttl_ms (cfg this))
                     (Keyv.get (Date_now P (ext w)) (otpSentKey clientId) (db w)).2))
               x2 (trace w ++ [CodegenGenerate c; MessagesSend params])).
Proof.
  intros Hopen Hgen params Hsend t. destruct w as [s x tr].
  unfold throttled, Keyv.live in Hopen. simpl in *.
  unfold sendOtp, bind, otpSendRateOpened, bind, db_get. simpl.
  destruct (Keyv.get _ (otpSentKey clientId) s) as [o s0]. simpl in Hopen.
  assert (match o with
          | Some v => if value_truthy v then throw otp_rate_limited else ret ()
          | None => ret ()
          end (mkWorld s0 x tr) = (Resolved (), mkWorld s0 x tr)) as ->.
  { destruct o as [v|]; [|done]. by rewrite Hopen. }
  simpl. unfold generate. simpl. rewrite Hgen. simpl.
  unfold call. simpl. fold params. rewrite Hsend. simpl.
  rewrite <- app_assoc. by destruct sent as [e|[]].
Qed.

(** [useOtp] on a code that is stored and alive, up to the registry's
    answer. *)
Lemma useOtp_asks_registry (params : UserOtpDto) (w : World Ext) (e : Keyv.Entry)
      (cid : Z) (k : RplClient → M Ext TokenProfile) :
  db w !! code params = Some e →
  Keyv.expired (Date_now P (ext w)) e = false →
  Keyv.value e = Keyv.OtpItem cid →
  useOtp P L this params w
  = bind (call Rethrown (ClientsGet (Some cid)) (clients_get this (Some cid)))
         (λ user,
            bind (generateToken P L this (client_payload user) None)
                 (λ token,
                    bind (db_delete (code params))
                         (λ _, ret (mkTokenProfile
                                      token
                                      (pick (client_obj user) userProfilKeys)))))
         (mkWorld (db w) (ext w) (trace w)).
Proof.
  intros Hdb Hlive Hval. unfold useOtp. unfold bind at 1. unfold db_get.
  rewrite (keyv_get_live _ _ _ _ Hdb Hlive), Hval. reflexivity.
Qed.

(** X1. A call to [useOtp], whatever its outcome, leaves every other key
    of the store as it was; for a code of six characters, as the schema
    demands, that includes every cooldown mark. *)
Theorem useOtp_frame (params : UserOtpDto) (w w' : World Ext)
        (r : Outcome TokenProfile) :
  useOtp P L this params w = (r, w') →
  (∀ k, k ≠ code params → db w' !! k = db w !! k)
  ∧ (userOtpSchema params = true →
     ∀ clientId, db w' !! otpSentKey clientId = db w !! otpSentKey clientId).
Proof.
  intros Hrun.
  assert (∀ k, k ≠ code params → db w' !! k = db w !! k) as Hframe.
  { intros k Hk. revert Hrun. unfold useOtp, bind, db_get.
    pose proof (keyv_get_store (Date_now P (ext w)) (code params) k (db w)
                               (not_eq_sym Hk)) as Hget.
    destruct (Keyv.get _ _ _) as [found s]. simpl in Hget.
    destruct found as [item|]; [|by intros [= _ <-]].
    destruct (value_truthy item); simpl; [|by intros [= _ <-]].
    destruct (call _ _ _ _) as [[user|err] w1] eqn:Hcall;
      apply call_db in Hcall as [Hdb1 _]; simpl in Hdb1;
      [|intros [= _ <-]; by rewrite Hdb1].
    destruct (generateToken _ _ _ _ _ w1) as [[tok|err] w2] eqn:Htok;
      apply generateToken_db in Htok;
      [|intros [= _ <-]; by rewrite Htok, Hdb1].
    unfold db_delete, ret. intros [= _ <-]. simpl.
    unfold Keyv.delete. rewrite lookup_delete_ne by done.
    by rewrite Htok, Hdb1. }
  split; [exact Hframe|].
  intros Hschema clientId. apply Hframe.
  intros Heq. symmetry in Heq. revert Heq.
  apply code_not_otpSentKey. by destruct params.
Qed.

(** X2. A consume that fails after the look-up does not burn the code:
    when the registry throws, or token issuance is rejected, [useOtp] is
    rejected with that very error and the code is still stored. *)
Theorem useOtp_failure_keeps_code (params : UserOtpDto) (w : World Ext)
        (e : Keyv.Entry) (cid : Z) :
  db w !! code params = Some e →
  Keyv.expired (Date_now P (ext w)) e = false →
  Keyv.value e = Keyv.OtpItem cid →
  (∀ (err : ThrownError) (x1 : Ext),
      clients_get this (Some cid) (ext w) = (inl err, x1) →
      useOtp P L this params w
      = (Rejected (Rethrown err),
         mkWorld (db w) x1 (trace w ++ [ClientsGet (Some cid)])))
  ∧ (∀ (user : RplClient) (x1 : Ext) (err : Error) (w2 : World Ext),
        clients_get this (Some cid) (ext w) = (inr user, x1) →
        generateToken P L this (client_payload user) None
                      (mkWorld (db w) x1 (trace w ++ [ClientsGet (Some cid)]))
        = (Rejected err, w2) →
        useOtp P L this params w = (Rejected err, w2)
        ∧ db w2 !! code params = Some e).
Proof.
  intros Hdb Hlive Hval. split.
  - intros err x1 Hget.
    rewrite (useOtp_asks_registry params w e cid (λ _, ret (mkTokenProfile "" ∅)))
      by done.
    unfold bind, call. simpl. by rewrite Hget.
  - intros user x1 err w2 Hget Htok.
    rewrite (useOtp_asks_registry params w e cid (λ _, ret (mkTokenProfile "" ∅)))
      by done.
    unfold bind, call. simpl. rewrite Hget, Htok. split; [done|].
    apply generateToken_db in Htok. simpl in Htok. by rewrite Htok.
Qed.

(** X3. Round trip through the store: the code [sendOtp] returns for a
    subject is, until the clock passes its ttl (for ever with a ttl of
    0), a code on which [useOtp] asks the registry for that very subject
    and, the registry and token issuance answering, resolves with that
    subject's profile and deletes the code. *)
Theorem sendOtp_useOtp_roundtrip (clientId : Z) (agentId : option Z)
        (w : World Ext) (c : string) (x1 x2 : Ext) :
  throttled P clientId w = false →
  codegen_generate this (ext w) = (c, x1) →
  c ≠ otpSentKey clientId →
  messages_send this
    (mkSend (default (repliers_clients_defaultAgentId (cfg this)) agentId)
            clientId "agent" (formatOtpMessageContent this c)) x1
  = (inr tt, x2) →
  let t := Date_now P x1 in
  let ttl := auth_otp_ttl_ms (cfg this) in
  let stored := Keyv.mkEntry (Keyv.OtpItem clientId) (Keyv.expiry t ttl) in
  ∃ w1 : World Ext,
    sendOtp P this clientId agentId w = (Resolved c, w1)
    ∧ db w1 !! c = Some stored
    ∧ ∀ (w2 : World Ext) (user : RplClient) (x3 : Ext) (tok : string)
        (w4 : World Ext),
        db w2 !! c = Some stored →
        ttl = 0 ∨ Date_now P (ext w2) ≤ t + ttl →
        clients_get this (Some clientId) (ext w2) = (inr user, x3) →
        generateToken P L this (client_payload user) None
                      (mkWorld (db w2) x3 (trace w2 ++ [ClientsGet (Some clientId)]))
        = (Resolved tok, w4) →
        useOtp P L this (mkOtpDto c) w2
        = (Resolved (mkTokenProfile tok (pick (client_obj user) userProfilKeys)),
           mkWorld (Keyv.delete c (db w2)) (ext w4) (trace w4)).
Proof.
  intros Hlive Hgen Hne Hsend t ttl stored. eexists. split; [|split].
  - by rewrite (sendOtp_writes clientId agentId w c x1 x2 (inr tt)).
  - simpl. unfold Keyv.set.
    rewrite lookup_insert_ne by done. by rewrite lookup_insert_eq.
  - intros w2 user x3 tok w4 Hsame Halive Hget Htok.
    rewrite (useOtp_asks_registry (mkOtpDto c) w2 _ clientId
               (λ _, ret (mkTokenProfile "" ∅)) Hsame); [| |done].
    + unfold bind, call. simpl. rewrite Hget, Htok.
      apply generateToken_db in Htok. simpl in Htok.
      unfold db_delete, ret. simpl. by rewrite Htok.
    + subst stored. unfold Keyv.expired, Keyv.expiry. simpl.
      destruct (Z.eqb_spec ttl 0) as [Hz|Hz]; [done|].
      destruct Halive as [?|Hle]; [done|]. simpl. by apply Z.ltb_ge.
Qed.

(** X4. Expiry: once the clock has passed the ttl of the code (a ttl
    other than 0), [useOtp] refuses the code [sendOtp] returned with the
    403 "used or expired" error, calls no collaborator, and drops the
    dead entry from the store. *)
Theorem sendOtp_code_expires (clientId : Z) (agentId : option Z)
        (w : World Ext) (c : string) (x1 x2 : Ext) :
  throttled P clientId w = false →
  codegen_generate this (ext w) = (c, x1) →
  c ≠ otpSentKey clientId →
  messages_send this
    (mkSend (default (repliers_clients_defaultAgentId (cfg this)) agentId)
            clientId "agent" (formatOtpMessageContent this c)) x1
  = (inr tt, x2) →
  let t := Date_now P x1 in
  let ttl := auth_otp_ttl_ms (cfg this) in
  let stored := Keyv.mkEntry (Keyv.OtpItem clientId) (Keyv.expiry t ttl) in
  ttl ≠ 0 →
  ∃ w1 : World Ext,
    sendOtp P this clientId agentId w = (Resolved c, w1)
    ∧ db w1 !! c = Some stored
    ∧ ∀ w2 : World Ext,
        db w2 !! c = Some stored →
        t + ttl < Date_now P (ext w2) →
        useOtp P L this (mkOtpDto c) w2
        = (Rejected otp_used_or_expired,
           mkWorld (base.delete c (db w2)) (ext w2) (trace w2)).
Proof.
  intros Hlive Hgen Hne Hsend t ttl stored Httl. eexists. split; [|split].
  - by rewrite (sendOtp_writes clientId agentId w c x1 x2 (inr tt)).
  - simpl. unfold Keyv.set.
    rewrite lookup_insert_ne by done. by rewrite lookup_insert_eq.
  - intros w2 Hsame Hlate.
    unfold useOtp, bind, db_get, Keyv.get. simpl. rewrite Hsame.
    subst stored. unfold Keyv.expired, Keyv.expiry. simpl.
    destruct (Z.eqb_spec ttl 0) as [Hz|Hz]; [done|]. simpl.
    apply Z.ltb_lt in Hlate. by rewrite Hlate.
Qed.

(** X5. A send that fails at the broker still throttles: when
    [messages.send] throws, [sendOtp] is rejected with that error, but
    the code and the cooldown mark are already stored, and until that
    mark expires every further [sendOtp] for the subject is refused with
    the 403 rate limit. *)
Theorem sendOtp_broker_failure (clientId : Z) (agentId : option Z)
        (w : World Ext) (c : string) (x1 x2 : Ext) (err : ThrownError) :
  throttled P clientId w = false →
  codegen_generate this (ext w) = (c, x1) →
  c ≠ otpSentKey clientId →
  messages_send this
    (mkSend (default (repliers_clients_defaultAgentId (cfg this)) agentId)
            clientId "agent" (formatOtpMessageContent this c)) x1
  = (inl err, x2) →
  let t := Date_now P x1 in
  let mark := Keyv.mkEntry (Keyv.Num t)
                           (Keyv.expiry t (auth_otp_resend_ttl_ms (cfg this))) in
  ∃ w1 : World Ext,
    sendOtp P this clientId agentId w = (Rejected (Rethrown err), w1)
    ∧ db w1 !! c = Some (Keyv.mkEntry (Keyv.OtpItem clientId)
                                      (Keyv.expiry t (auth_otp_ttl_ms (cfg this))))
    ∧ db w1 !! otpSentKey clientId = Some mark
    ∧ ∀ (w2 : World Ext) (again : option Z),
        t ≠ 0 →
        db w2 !! otpSentKey clientId = Some mark →
        Keyv.expired (Date_now P (ext w2)) mark = false →
        sendOtp P this clientId again w2 = (Rejected otp_rate_limited, w2).
Proof.
  intros Hlive Hgen Hne Hsend t mark. eexists. split; [|split; [|split]].
  - by rewrite (sendOtp_writes clientId agentId w c x1 x2 (inl err)).
  - simpl. unfold Keyv.set.
    rewrite lookup_insert_ne by done. by rewrite lookup_insert_eq.
  - simpl. unfold Keyv.set. by rewrite lookup_insert_eq.
  - intros w2 again Ht Hmark Halive.
    apply (sendOtp_closed P this clientId again w2 (Keyv.Num t)).
    + unfold Keyv.live. by rewrite (keyv_get_live _ _ _ _ Hmark Halive).
    + simpl. unfold num_truthy. by destruct (Z.eqb_spec t 0).
Qed.

(** X6. The throttle is per subject: whatever its outcome, [sendOtp] for
    one subject changes the store at most under the generated code and
    under that subject's own cooldown key, and the cooldown keys of
    different subjects differ; so it neither sets nor clears the mark of
    any other subject. *)
Theorem sendOtp_frame (clientId : Z) (agentId : option Z) (w w' : World Ext)
        (r : Outcome string) (c : string) (x1 : Ext) :
  codegen_generate this (ext w) = (c, x1) →
  sendOtp P this clientId agentId w = (r, w') →
  (∀ k, k ≠ c → k ≠ otpSentKey clientId → db w' !! k = db w !! k)
  ∧ (∀ other, other ≠ clientId → c ≠ otpSentKey other →
              db w' !! otpSentKey other = db w !! otpSentKey other).
Proof.
  intros Hgen Hrun.
  assert (∀ k, k ≠ c → k ≠ otpSentKey clientId → db w' !! k = db w !! k) as Hframe.
  { intros k Hc Hk.
    destruct (throttled P clientId w) eqn:Hthrottled.
    - unfold throttled in Hthrottled.
      destruct (Keyv.live _ _ _) as [v|] eqn:Hlive; [|done].
      rewrite (sendOtp_closed P this clientId agentId w v Hlive Hthrottled) in Hrun.
      by injection Hrun as _ <-.
    - destruct (messages_send this
                  (mkSend (default (repliers_clients_defaultAgentId (cfg this)) agentId)
                          clientId "agent" (formatOtpMessageContent this c)) x1)
        as [sent x2] eqn:Hsend.
      rewrite (sendOtp_writes clientId agentId w c x1 x2 sent Hthrottled Hgen Hsend)
        in Hrun.
      injection Hrun as _ <-. simpl. unfold Keyv.set.
      rewrite !lookup_insert_ne by done.
      by apply keyv_get_store. }
  split; [exact Hframe|].
  intros other Hother Hc. apply Hframe; [by apply not_eq_sym|].
  intros Heq. by apply otpSentKey_inj in Heq.
Qed.

End OtpStore.


(** ** Token issuance and refresh when a collaborator fails *)

Section Failures.
Context {Ext : Type} (P : Platform Ext) (L : Lib) (this : AuthService Ext).

(** The calls [generateToken] adds to the trace are ACL look-ups and
    signatures only. *)
Lemma generateToken_calls (payload : JwtPayload) (explicit : option string)
      (w w' : World Ext) (r : Outcome string) :
  generateToken P L this payload explicit w = (r, w') →
  ∃ calls : list Event,
    trace w' = trace w ++ calls
    ∧ ∀ ev, ev ∈ calls →
            (∃ email, ev = AclGetUserAcl email) ∨ (∃ p o, ev = JwtSign p o).
Proof.
  unfold generateToken, bind, resolve.
  destruct (negb (app_disable_persistence (cfg this))).
  - unfold bind, call.
    destruct (aclRepo_getUserAcl this _ (ext w)) as [[e|acl] x1]; simpl.
    + intros [= _ <-]. simpl. eexists. split; [done|].
      intros ev ->%list_elem_of_singleton. left. by eexists.
    + unfold randomUUID. simpl. destruct (crypto_randomUUID P x1) as [u x2]. simpl.
      destruct (jwt_sign P _ _ _ x2) as [s x3]. intros [= _ <-]. simpl.
      rewrite <- app_assoc. eexists. split; [done|].
      intros ev [->|[->|[]%elem_of_nil]%elem_of_cons]%elem_of_cons.
      * left. by eexists.
      * right. by do 2 eexists.
  - unfold ret, randomUUID. simpl.
    destruct (crypto_randomUUID P (ext w)) as [u x2]. unfold call. simpl.
    destruct (jwt_sign P _ _ _ x2) as [s x3]. intros [= _ <-]. simpl.
    eexists. split; [done|].
    intros ev ->%list_elem_of_singleton. right. by do 2 eexists.
Qed.

(** A token that is handed out has been signed. *)
Lemma generateToken_resolved_signs (payload : JwtPayload) (explicit : option string)
      (w w' : World Ext) (tok : string) :
  generateToken P L this payload explicit w = (Resolved tok, w') →
  ∃ signed options, JwtSign signed options ∈ trace w'.
Proof.
  unfold generateToken, bind.
  destruct (resolve L this payload w) as [[settled|e] w1]; [|done].
  unfold randomUUID. destruct (crypto_randomUUID P (ext w1)) as [u x2]. simpl.
  unfold call. simpl. destruct (jwt_sign P _ _ _ x2) as [[e|t] x3]; [done|].
  intros [= _ <-]. simpl. do 2 eexists.
  apply elem_of_app. right. by apply list_elem_of_singleton.
Qed.

(** X7. The footprint of token issuance.  Whatever its outcome,
    [generateToken] leaves the OTP store alone.  With persistence off it
    asks no one and signs the payload as given, exactly once.  With
    persistence on it asks the ACL repository first: if that throws,
    it is rejected with that error and has made no other call, so
    nothing is signed; if it answers, the payload is signed once with
    the role settled from the answer.  Every signature is asked for
    with RS256, the configured issuer and the fresh UUID as token id,
    and the outcome is then that of [jwt.sign]: its token, or its error
    rethrown. *)
Theorem generateToken_footprint (payload : JwtPayload) (explicit : option string)
        (w w' : World Ext) (r : Outcome string) :
  generateToken P L this payload explicit w = (r, w') →
  let email := claims payload !! "email" in
  let signed_with (signed : JwtPayload) (calls : list Event) (x0 : Ext) : Prop :=
    ∃ options : SignOptions,
      trace w' = trace w ++ calls ++ [JwtSign signed options]
      ∧ algorithm options = "RS256"
      ∧ issuer options = auth_jwt_issuer (cfg this)
      ∧ jwtid options = (crypto_randomUUID P x0).1
      ∧ r = match (jwt_sign P signed (keys_private this) options
                            (crypto_randomUUID P x0).2).1 with
            | inl e => Rejected (Rethrown e)
            | inr token => Resolved token
            end in
  db w' = db w
  ∧ (app_disable_persistence (cfg this) = true → signed_with payload [] (ext w))
  ∧ (app_disable_persistence (cfg this) = false →
     (∀ e x1, aclRepo_getUserAcl this email (ext w) = (inl e, x1) →
              r = Rejected (Rethrown e)
              ∧ w' = mkWorld (db w) x1 (trace w ++ [AclGetUserAcl email]))
     ∧ (∀ acl x1, aclRepo_getUserAcl this email (ext w) = (inr acl, x1) →
                  signed_with (set_role payload (effective_role L acl payload))
                              [AclGetUserAcl email] x1)).
Proof.
  intros Hrun email signed_with. subst signed_with.
  split; [by apply generateToken_db in Hrun|].
  revert Hrun. unfold generateToken, bind, resolve.
  destruct (app_disable_persistence (cfg this)); simpl.
  - unfold ret, randomUUID. simpl.
    destruct (crypto_randomUUID P (ext w)) as [u x2]. unfold call. simpl.
    destruct (jwt_sign P _ _ _ x2) as [o x3] eqn:Hsign. intros [= <- <-]. simpl.
    split; [|done]. intros _. eexists. rewrite Hsign. simpl.
    repeat split; by destruct o.
  - unfold bind, call. fold email.
    destruct (aclRepo_getUserAcl this email (ext w)) as [[e|acl] x1]; simpl.
    + intros [= <- <-]. simpl. split; [done|].
      intros _. split; [|done]. by intros ? ? [= <- <-].
    + unfold randomUUID. simpl.
      destruct (crypto_randomUUID P x1) as [u x2] eqn:Huuid. simpl.
      destruct (jwt_sign P _ _ _ x2) as [o x3] eqn:Hsign. intros [= <- <-]. simpl.
      split; [done|]. intros _. split; [done|].
      intros ? ? [= <- <-]. rewrite Huuid. eexists. simpl. rewrite Hsign. simpl.
      rewrite <- app_assoc. repeat split; by destruct o.
Qed.

(** X8. A refresh that fails at token issuance revokes nothing: for
    claims with non-zero [iat] and [exp], when [generateToken] is
    rejected, [refresh] is rejected with the same error in the same
    world, and no blocklist call has been added to the trace, so the old
    token stays valid. *)
Theorem refresh_issuance_failure (payload : JwtPayload) (w w1 : World Ext)
        (i e : Z) (err : Error) :
  iat payload = Some i → exp payload = Some e → i ≠ 0 → e ≠ 0 →
  generateToken P L this (mkPayload None None None None (claims payload))
                (Some (num_toString (e - i) +:+ "s")) w
  = (Rejected err, w1) →
  refresh P L this payload w = (Rejected err, w1)
  ∧ ∀ j x, BlocklistCreate j x ∈ trace w1 → BlocklistCreate j x ∈ trace w.
Proof.
  intros Hi He Hi0 He0 Hgen. split.
  - unfold refresh. rewrite Hi, He, (lacks_Some _ Hi0), (lacks_Some _ He0). simpl.
    unfold bind. by rewrite Hgen.
  - intros j x Hin. apply generateToken_calls in Hgen as (calls & Htrace & Hcalls).
    rewrite Htrace in Hin. apply elem_of_app in Hin as [Hin|Hin]; [done|].
    apply Hcalls in Hin as [[? [=]]|[? [? [=]]]].
Qed.

(** X9. A refresh that fails at the blocklist loses the new token: for
    claims with non-zero [iat] and [exp] and a non-empty [jti], when the
    token has been signed and [blocklistRepository.create] throws,
    [refresh] is rejected with that error; the new token has been signed
    but is not handed out. *)
Theorem refresh_revocation_failure (payload : JwtPayload) (w w1 : World Ext)
        (i e : Z) (j tok : string) (err : ThrownError) (x2 : Ext) :
  iat payload = Some i → exp payload = Some e → i ≠ 0 → e ≠ 0 →
  jti payload = Some j → j ≠ "" →
  generateToken P L this (mkPayload None None None None (claims payload))
                (Some (num_toString (e - i) +:+ "s")) w
  = (Resolved tok, w1) →
  blocklistRepository_create this j e (ext w1) = (inl err, x2) →
  refresh P L this payload w
  = (Rejected (Rethrown err),
     mkWorld (db w1) x2 (trace w1 ++ [BlocklistCreate j e]))
  ∧ ∃ signed options, JwtSign signed options ∈ trace w1.
Proof.
  intros Hi He Hi0 He0 Hj Hj0 Hgen Hrevoke. split.
  - unfold refresh. rewrite Hi, He, (lacks_Some _ Hi0), (lacks_Some _ He0). simpl.
    unfold bind. rewrite Hgen. unfold revoke_previous.
    rewrite Hj, (str_truthy_ne _ Hj0). unfold call. by rewrite Hrevoke.
  - by apply generateToken_resolved_signs in Hgen.
Qed.

End Failures.

(** ** Login and signup when Strapi or the registry fails *)

Section Delegation.
Context {Ext : Type} (P : Platform Ext) (this : AuthService Ext).

(** X10. A password login that fails.  When Strapi answers the
    credentials with a 400, [login] is rejected with 401 "Invalid
    credentials"; on any other failure of Strapi, with 503; in both
    cases the registry is not called.  When Strapi accepts the
    credentials and the registry look-up throws, [login] is rejected
    with the registry's error: Strapi's token is not handed out. *)
Theorem login_failures (params : UserLoginDto) (pw : string) (w : World Ext) :
  password params = Some pw → pw ≠ "" → identifier params ≠ "" →
  let credentials := mkStrapiLogin (identifier params) pw in
  (∀ (err : AxiosError) (x1 : Ext),
      axios_post_login P credentials (ext w) = (inl err, x1) →
      login P this params w
      = (Rejected (if bool_decide (response_status err = Some 400)
                   then ApiError "Invalid credentials" (Some 401)
                   else ApiError "Authentication service unavailable" (Some 503)),
         mkWorld (db w) x1 (trace w ++ [StrapiLogin credentials])))
  ∧ (∀ (strapiAuth : StrapiAuthResponse) (x1 x2 : Ext) (err : ThrownError),
        axios_post_login P credentials (ext w) = (inr strapiAuth, x1) →
        let by_id := FilterByExternalId (num_toString (id (user strapiAuth))) in
        clients_filter this by_id x1 = (inl err, x2) →
        login P this params w
        = (Rejected (Rethrown err),
           mkWorld (db w) x2 (trace w ++ [StrapiLogin credentials; ClientsFilter by_id]))).
Proof.
  intros Hpw Hne Hid credentials. split.
  - intros err x1 Hlogin.
    unfold login. rewrite Hpw, (str_truthy_ne _ Hne), (str_truthy_ne _ Hid). simpl.
    unfold loginWithStrapi, bind, try_catch, bind, StrapiService.login, call.
    fold credentials. by rewrite Hlogin.
  - intros strapiAuth x1 x2 err Hlogin by_id Hfilter.
    unfold login. rewrite Hpw, (str_truthy_ne _ Hne), (str_truthy_ne _ Hid). simpl.
    unfold loginWithStrapi, bind, try_catch, bind, StrapiService.login, call.
    fold credentials. rewrite Hlogin. simpl. fold by_id. rewrite Hfilter. simpl.
    unfold throw. by rewrite <- app_assoc.
Qed.

(** X11. A signup that Strapi refuses never reaches the registry: the
    rejection is an [ApiError] with status 400 carrying Strapi's message
    (or "Registration failed" when Strapi sent none) if Strapi answered
    400, and the 503 "Registration service unavailable" otherwise, and
    the only call made is the registration itself. *)
Theorem signup_register_failure (params : UserSignupDto) (w : World Ext)
        (err : AxiosError) (x1 : Ext) :
  let register :=
    mkRegister (username params) (signup_email params) (signup_password params)
               (firstName params) (lastName params) in
  axios_post_register P register (ext w) = (inl err, x1) →
  ∃ rejection : Error,
    signup P this params w
    = (Rejected rejection, mkWorld (db w) x1 (trace w ++ [StrapiRegister register]))
    ∧ (response_status err = Some 400 →
       (∀ m, response_data_error_message err = Some m → m ≠ "" →
             rejection = ApiError m (Some 400))
       ∧ (response_data_error_message err = None
          ∨ response_data_error_message err = Some "" →
          rejection = ApiError "Registration failed" (Some 400)))
    ∧ (response_status err ≠ Some 400 →
       rejection = ApiError "Registration service unavailable" (Some 503)).
Proof.
  intros register Hreg.
  exists (StrapiService.register_catch err). split; [|split].
  - unfold signup, bind, try_catch, StrapiService.register, call.
    fold register. by rewrite Hreg.
  - intros H400. unfold StrapiService.register_catch.
    rewrite bool_decide_eq_true_2 by done. split.
    + intros m -> Hm. by rewrite or_else_Some.
    + intros [-> | ->]; done.
  - intros H. unfold StrapiService.register_catch.
    by rewrite bool_decide_eq_false_2.
Qed.

(** X12. Only a conflict is absorbed: when Strapi has registered the user
    and the registry's [create] throws an error whose [status] and
    [statusCode] are both other than 409, [signup] is rejected with that
    very error after those two calls: no look-up, no update, and the
    account just created in Strapi stays. *)
Theorem signup_create_failure (params : UserSignupDto) (w : World Ext)
        (strapiAuth : StrapiAuthResponse) (error : ThrownError) (x1 x2 : Ext) :
  let register :=
    mkRegister (username params) (signup_email params) (signup_password params)
               (firstName params) (lastName params) in
  let create :=
    mkCreate (repliers_clients_defaultAgentId (cfg this)) (firstName params)
             (lastName params) (signup_email params) (id (user strapiAuth))
             signup_preferences true in
  axios_post_register P register (ext w) = (inr strapiAuth, x1) →
  clients_create this create x1 = (inl error, x2) →
  err_status error ≠ Some 409 → err_statusCode error ≠ Some 409 →
  signup P this params w
  = (Rejected (Rethrown error),
     mkWorld (db w) x2 (trace w ++ [StrapiRegister register; ClientsCreate create])).
Proof.
  intros register create Hreg Hcreate Hs Hc.
  unfold signup, bind, try_catch, StrapiService.register, call.
  fold register. rewrite Hreg. simpl.
  unfold create_or_update, try_catch, bind, call. simpl.
  fold create. rewrite Hcreate. simpl.
  rewrite !bool_decide_eq_false_2 by done. simpl.
  unfold throw. by rewrite <- app_assoc.
Qed.

(** X13. A first signup: when Strapi registers the user and the
    registry's [create] answers, [signup] resolves with Strapi's token
    and the merged profile after exactly those two calls; the registry
    is neither searched nor updated. *)
Theorem signup_fresh (params : UserSignupDto) (w : World Ext)
        (strapiAuth : StrapiAuthResponse) (userInfo : RplClient) (x1 x2 : Ext) :
  let register :=
    mkRegister (username params) (signup_email params) (signup_password params)
               (firstName params) (lastName params) in
  let create :=
    mkCreate (repliers_clients_defaultAgentId (cfg this)) (firstName params)
             (lastName params) (signup_email params) (id (user strapiAuth))
             signup_preferences true in
  axios_post_register P register (ext w) = (inr strapiAuth, x1) →
  clients_create this create x1 = (inr userInfo, x2) →
  signup P this params w
  = (Resolved
       (mkAuthResponse
          (Some (jwt strapiAuth))
          (Some (pick (spread (client_obj userInfo) (strapi_obj (user strapiAuth)))
                      userProfilKeys))),
     mkWorld (db w) x2 (trace w ++ [StrapiRegister register; ClientsCreate create])).
Proof.
  intros register create Hreg Hcreate.
  unfold signup, bind, try_catch, StrapiService.register, call.
  fold register. rewrite Hreg. simpl.
  unfold create_or_update, try_catch, bind, call. simpl.
  fold create. rewrite Hcreate. simpl.
  unfold ret. by rewrite <- app_assoc.
Qed.

End Delegation.


(** ** Magic links, embed login and the OTP message *)

Section Links.
Context {Ext : Type} (P : Platform Ext) (L : Lib) (this : AuthService Ext).

(** X14. Consuming a magic link marks nothing as used: a call to
    [useRepliersToken] that resolves leaves the store exactly as it was,
    and with auto-resend off so does every call, whatever its outcome.
    Nothing is deleted, and the same token can be presented again. *)
Theorem useRepliersToken_leaves_store (params : AuthRepliersTokenDto)
        (w w' : World Ext) (r : Outcome TokenProfile) :
  useRepliersToken P L this params w = (r, w') →
  ((∃ res, r = Resolved res) → db w' = db w)
  ∧ (auth_emailtoken_auto_otp (cfg this) = false → db w' = db w).
Proof.
  unfold useRepliersToken.
  destruct (negb (auth_emailtoken_enabled (cfg this)));
    [intros [= <- <-]; split; [by intros [? [=]]|done]|].
  unfold bind at 1.
  destruct (call _ _ _ w) as [[messageRes|e] w1] eqn:Hget;
    apply call_db in Hget as [Hdb1 _];
    [|intros [= <- <-]; split; [by intros [? [=]]|done]].
  destruct messageRes as [|message rest];
    [intros [= <- <-]; split; [by intros [? [=]]|done]|].
  unfold bind at 1, now.
  destruct (expired_since _ _ _).
  - destruct (auth_emailtoken_auto_otp (cfg this)).
    + unfold bind. destruct (sendOtp _ _ _ _ w1) as [[c|e] w2];
        intros [= <- <-]; split; [by intros [? [=]]|done|by intros [? [=]]|done].
    + intros [= <- <-]. split; [by intros [? [=]]|done].
  - unfold bind.
    destruct (call _ _ _ w1) as [[userInfo|e] w2] eqn:Hclient;
      apply call_db in Hclient as [Hdb2 _];
      [|intros [= <- <-]; split; intros _; by rewrite Hdb2].
    destruct (generateToken _ _ _ _ _ w2) as [[tok|e] w3] eqn:Htok;
      apply generateToken_db in Htok;
      intros [= <- <-]; split; intros _; by rewrite Htok, Hdb2.
Qed.

(** X15. An embed login that fails after the signature check.  When the
    signature matches and decoding the context throws, [embedLogin] is
    rejected with that error and the world is left as it was: no token
    is asked for.  When the context decodes and token issuance is
    rejected, [embedLogin] is rejected with the same error in the same
    world. *)
Theorem embedLogin_failures (params : AuthEmbedDto) (w : World Ext) :
  isFromFollowUpBoss L (context params) (signature params)
                     (boss_system_key (cfg this)) = true →
  (∀ e, decode_context P (context params) = inl e →
        embedLogin P L this params w = (Rejected (Rethrown e), w))
  ∧ (∀ decoded err w1,
        decode_context P (context params) = inr decoded →
        generateToken P L this
          (mkPayload None None None None
                     (<["email" := JStr (boss_user_email decoded)]>
                        (<["role" := JStr (UserRole_Agent L)]> ∅)))
          None w
        = (Rejected err, w1) →
        embedLogin P L this params w = (Rejected err, w1)).
Proof.
  intros Hok. split.
  - intros e Hdec. unfold embedLogin. by rewrite Hok, Hdec.
  - intros decoded err w1 Hdec Hgen. unfold embedLogin. rewrite Hok, Hdec. simpl.
    unfold bind. by rewrite Hgen.
Qed.

(** X16. The OTP message never drops the code: whatever the configured
    message type, the content carries either the single link
    "<uri>?code=<code>" or a message that ends in the code, and both for
    "link_and_code"; "code" is the only type without a link, and a type
    that is none of the three known ones is treated as "link". *)
Theorem formatOtpMessageContent_carries_code (code : string) :
  let content := formatOtpMessageContent this code in
  let link := auth_otp_uri (cfg this) +:+ "?code=" +:+ code in
  let with_code := auth_otp_message (cfg this) +:+ " " +:+ code in
  let type := auth_otp_message_type (cfg this) in
  (content_links content = Some [link] ∨ content_message content = with_code)
  ∧ (type = "code" ↔ content_links content = None)
  ∧ (type = "link_and_code" →
     content_links content = Some [link] ∧ content_message content = with_code)
  ∧ (type ≠ "code" → type ≠ "link_and_code" →
     content = mkContent (auth_otp_message (cfg this)) (Some [link])).
Proof.
  intros content link with_code type. subst content. unfold formatOtpMessageContent.
  fold link with_code type.
  destruct (String.eqb_spec type "link") as [Hl|Hl].
  - rewrite Hl. repeat split; try done; by left.
  - destruct (String.eqb_spec type "code") as [Hc|Hc].
    + rewrite Hc. repeat split; try done; by right.
    + destruct (String.eqb_spec type "link_and_code") as [Hb|Hb].
      * rewrite Hb. repeat split; try done; by left.
      * repeat split; try done; by left.
Qed.

End Links.


(** ** Strapi over HTTP: the content reads and the account calls *)

Section StrapiOverHttp.
Import Http StrapiClient.
Context {Ext : Type} (strapi : StrapiSettings).
Context (users_me : Axios Ext UserData) (axios : Axios Ext Json).

(** X17. The account calls of [StrapiService] never leak an axios error:
    whatever Strapi does, [getMe], [updateUser], [forgotPassword] and
    [resetPassword] send exactly one request and either resolve or are
    rejected with an [ApiError]: 401 for [getMe] exactly when Strapi
    answered 401, 400 for [resetPassword] exactly when Strapi answered
    400, and 503 in every other case. *)
Theorem account_calls_map_errors (n : Net Ext) :
  (∀ token r n',
      getMe strapi users_me token n = (r, n') →
      (∃ request, sent n' = sent n ++ [request])
      ∧ ∀ e, r = Rejected e →
             ∃ error x, users_me (client strapi GET "/api/users/me" (bearer token) None)
                                 (outside n) = (inl error, x)
                        ∧ e = if bool_decide (response_status error = Some 401)
                              then ApiError "Invalid or expired token" (Some 401)
                              else ApiError "Authentication service unavailable" (Some 503))
  ∧ (∀ id body r n',
        updateUser strapi axios id body n = (r, n') →
        (∃ request, sent n' = sent n ++ [request])
        ∧ ∀ e, r = Rejected e → e = ApiError "Update service unavailable" (Some 503))
  ∧ (∀ email r n',
        forgotPassword strapi axios email n = (r, n') →
        (∃ request, sent n' = sent n ++ [request])
        ∧ ∀ e, r = Rejected e →
               e = ApiError "Password reset service unavailable" (Some 503))
  ∧ (∀ code password confirmation r n',
        resetPassword strapi axios code password confirmation n = (r, n') →
        (∃ request, sent n' = sent n ++ [request])
        ∧ ∀ e, r = Rejected e →
               ∃ error x,
                 axios (client strapi POST "/api/auth/reset-password" None
                          (Some (JsonObj
                                   (<["code" := JsonStr code]>
                                      (<["password" := JsonStr password]>
                                         (<["passwordConfirmation" :=
                                              JsonStr confirmation]> ∅))))))
                       (outside n) = (inl error, x)
                 ∧ e = if bool_decide (response_status error = Some 400)
                       then ApiError "Invalid or expired reset code" (Some 400)
                       else ApiError "Password reset service unavailable" (Some 503)).
Proof.
  split; [|split; [|split]].
  - intros token r n'. unfold getMe, attempt.
    destruct (users_me _ _) as [[error|body] x] eqn:Hcall; intros [= <- <-];
      (split; [by eexists|]); intros e He; [|done].
    exists error, x. split; [done|].
    destruct (bool_decide _); by injection He as <-.
  - intros id body r n'. unfold updateUser, attempt.
    destruct (axios _ _) as [[error|answer] x]; intros [= <- <-];
      (split; [by eexists|]); intros e He; [|done].
    by injection He as <-.
  - intros email r n'. unfold forgotPassword, attempt.
    destruct (axios _ _) as [[error|answer] x]; intros [= <- <-];
      (split; [by eexists|]); intros e He; [|done].
    by injection He as <-.
  - intros code password confirmation r n'. unfold resetPassword, attempt.
    destruct (axios _ _) as [[error|answer] x] eqn:Hcall; intros [= <- <-];
      (split; [by eexists|]); intros e He; [|done].
    exists error, x. split; [done|].
    destruct (bool_decide _); by injection He as <-.
Qed.

(** X18. The content reads never fail: whatever Strapi does,
    [getArticles], [getArticleBySlug], [getArticleCategories] and
    [getArticleCategoryBySlug] resolve after one request that carries
    the API key; when the request fails, [getArticles] resolves with
    the empty page (no data, pagination all zero) and the other three
    with [null]; and [getArticleBySlug] also turns a falsy body into
    [null]. *)
Theorem content_reads_never_fail (n : Net Ext) :
  (∀ params,
      ∃ body request,
        getArticles strapi axios params n
        = (Resolved body, mkNet (axios request (outside n)).2 (sent n ++ [request]))
        ∧ Authorization (headers request) = Some ("Bearer " +:+ api_key strapi)
        ∧ (∀ error, (axios request (outside n)).1 = inl error → body = no_articles)
        ∧ (∀ answer, (axios request (outside n)).1 = inr answer → body = answer))
  ∧ (∀ slug,
        ∃ body request,
          getArticleBySlug strapi axios slug n
          = (Resolved body, mkNet (axios request (outside n)).2 (sent n ++ [request]))
          ∧ Authorization (headers request) = Some ("Bearer " +:+ api_key strapi)
          ∧ (∀ error, (axios request (outside n)).1 = inl error → body = JsonNull)
          ∧ (∀ answer, (axios request (outside n)).1 = inr answer →
                       body = if truthy answer then answer else JsonNull))
  ∧ (∃ body request,
        getArticleCategories strapi axios n
        = (Resolved body, mkNet (axios request (outside n)).2 (sent n ++ [request]))
        ∧ Authorization (headers request) = Some ("Bearer " +:+ api_key strapi)
        ∧ (∀ error, (axios request (outside n)).1 = inl error → body = JsonNull)
        ∧ (∀ answer, (axios request (outside n)).1 = inr answer → body = answer))
  ∧ (∀ slug,
        ∃ body request,
          getArticleCategoryBySlug strapi axios slug n
          = (Resolved body, mkNet (axios request (outside n)).2 (sent n ++ [request]))
          ∧ Authorization (headers request) = Some ("Bearer " +:+ api_key strapi)
          ∧ (∀ error, (axios request (outside n)).1 = inl error → body = JsonNull)
          ∧ (∀ answer, (axios request (outside n)).1 = inr answer → body = answer)).
Proof.
  split; [|split; [|split]].
  - intros params. unfold getArticles, attempt.
    destruct (axios _ (outside n)) as [[error|answer] x] eqn:Hcall;
      do 2 eexists; rewrite Hcall; simpl;
      (split; [reflexivity|]); (split; [reflexivity|]); by split; intros ? [=].
  - intros slug. unfold getArticleBySlug, attempt.
    destruct (axios _ (outside n)) as [[error|answer] x] eqn:Hcall;
      do 2 eexists; rewrite Hcall; simpl;
      (split; [reflexivity|]); (split; [reflexivity|]); split; intros ? [=]; by subst.
  - unfold getArticleCategories, attempt.
    destruct (axios _ (outside n)) as [[error|answer] x] eqn:Hcall;
      do 2 eexists; rewrite Hcall; simpl;
      (split; [reflexivity|]); (split; [reflexivity|]); by split; intros ? [=].
  - intros slug. unfold getArticleCategoryBySlug, attempt.
    destruct (axios _ (outside n)) as [[error|answer] x] eqn:Hcall;
      do 2 eexists; rewrite Hcall; simpl;
      (split; [reflexivity|]); (split; [reflexivity|]); by split; intros ? [=].
Qed.

End StrapiOverHttp.


(** ** The content routes *)

Section ContentRoutes.
Import Http StrapiClient ContentRouter.
Context {Ext : Type} (strapi : StrapiSettings) (axios : Axios Ext Json).
Context (parseInt : string → Num).

(** X19. [GET /content/articles] always answers: whatever the query and
    whatever Strapi does, the handler resolves after one request, with
    Strapi's body or, when Strapi fails, with the empty page.  Without
    [page], [pageSize] and [isFeatured] it asks for page 1 of size 10
    without the featured filter; the filter is asked for exactly when
    [isFeatured] is the string "true"; and the [categoryId] of the query
    changes nothing. *)
Theorem articles_route (query : gmap string string) (n : Net Ext) :
  (∃ body request,
      articles strapi axios parseInt query n
      = (Resolved body, mkNet (axios request (outside n)).2 (sent n ++ [request]))
      ∧ (∀ error, (axios request (outside n)).1 = inl error → body = no_articles)
      ∧ (∀ answer, (axios request (outside n)).1 = inr answer → body = answer))
  ∧ (∀ r n',
        articles strapi axios parseInt query n = (r, n') →
        ∃ (request : Request) (page size : Num),
          sent n' = sent n ++ [request]
          ∧ (let unfiltered :=
               "/api/articles?pagination[page]=" +:+ interpolate (Some page)
               +:+ "&pagination[pageSize]=" +:+ interpolate (Some size)
               +:+ "&_sort=createdAt:DESC" in
             url request
             = if bool_decide (query !! "isFeatured" = Some "true")
               then unfiltered +:+ "&filters[isFeatured][$eq]=true"
               else unfiltered)
          ∧ (query !! "page" = None → page = Int 1)
          ∧ (query !! "pageSize" = None → size = Int 10))
  ∧ (∀ category,
        articles strapi axios parseInt (<["categoryId" := category]> query) n
        = articles strapi axios parseInt query n).
Proof.
  split; [|split].
  - unfold articles, getArticles, attempt.
    destruct (axios _ (outside n)) as [[error|answer] x] eqn:Hcall;
      do 2 eexists; rewrite Hcall; simpl;
      (split; [reflexivity|]); by split; intros ? [=].
  - intros r n'. unfold articles, getArticles, attempt.
    destruct (axios _ (outside n)) as [o x]. intros [= _ <-]. simpl.
    eexists _, _, _. split; [reflexivity|]. split; [|split].
    + unfold articlesUri. simpl.
      destruct (bool_decide (query !! "isFeatured" = Some "true")) eqn:Hb.
      * apply bool_decide_eq_true in Hb. by rewrite Hb.
      * apply bool_decide_eq_false in Hb.
        destruct (query !! "isFeatured") as [s|]; simpl; [|done].
        destruct (str_truthy s); simpl; [|done].
        destruct (String.eqb_spec s "true") as [->|Hne]; [by destruct Hb|done].
    + by intros ->.
    + by intros ->.
  - intros category. unfold articles, getArticles, articlesUri. simpl.
    rewrite !lookup_insert_ne by done. reflexivity.
Qed.

(** X20. [GET /content/articles/:slug] answers the article or 404: the
    handler sends one request for the slug; a truthy body is the answer;
    a falsy body gives 404 "Article not found", and so does any failure
    of Strapi, which is never reported as such. *)
Theorem article_route (slug : string) (n : Net Ext)
        (answer : AxiosError + Json) (x : Ext) :
  let request :=
    client strapi GET ("/api/articles/" +:+ slug) (bearer (api_key strapi)) None in
  axios request (outside n) = (answer, x) →
  article strapi axios slug n
  = (match answer with
     | inr body => if truthy body then Resolved body
                   else Rejected (ApiError "Article not found" (Some 404))
     | inl error => Rejected (ApiError "Article not found" (Some 404))
     end, mkNet x (sent n ++ [request])).
Proof.
  intros request Hcall. unfold article, getArticleBySlug, attempt.
  fold request. rewrite Hcall. destruct answer as [error|body]; [done|].
  unfold or_json. by destruct (truthy body) eqn:Ht; simpl; rewrite ?Ht.
Qed.

End ContentRoutes.

(** ** The JWT middleware *)

Section Middleware.
Import Http JwtMiddleware.
Context {Ext : Type} (strapi : StrapiSettings) (users_me : Axios Ext UserData).

Lemma substring_all (s : string) : String.substring 0 (String.length s) s = s.
Proof. induction s as [|a s IH]; [done|]. simpl. by rewrite IH. Qed.

(** A header that starts with "Bearer " is "Bearer " followed by what
    [substring(7)] leaves. *)
Lemma bearer_substring7 (authHeader : string) :
  String.prefix "Bearer " authHeader = true →
  "Bearer " +:+ substring7 authHeader = authHeader ∧ str_truthy authHeader = true.
Proof.
  unfold substring7. intros H.
  do 7 (destruct authHeader as [|? authHeader]; cbn [String.prefix] in H;
        [discriminate H|];
        destruct (Ascii.ascii_dec _ _) as [<-|]; [|discriminate H]).
  split; [|done]. simpl. rewrite Nat.sub_0_r. by rewrite substring_all.
Qed.

(** X21. No bearer, no request: without an [authorization] header, or
    with one that does not start with "Bearer ", the middleware is
    rejected with 401 "No authorization token provided"; Strapi is not
    asked and the downstream handler is not run, whatever it is. *)
Theorem middleware_requires_bearer (authorization : option string)
        (next : gmap string Json → H Ext unit) (n : Net Ext) :
  (authorization = None
   ∨ ∃ authHeader, authorization = Some authHeader
                   ∧ String.prefix "Bearer " authHeader = false) →
  middleware strapi users_me authorization next n = (Rejected no_token, n)
  ∧ error_status no_token = Some 401.
Proof.
  intros [-> | (authHeader & -> & Hprefix)]; (split; [|reflexivity]); [done|].
  unfold middleware. rewrite Hprefix. by rewrite orb_true_r.
Qed.

(** X22. The token is validated by Strapi under the caller's own header:
    for a header that starts with "Bearer ", the middleware sends one
    request to "<base_url>/api/users/me" whose [Authorization] header is
    the header it received, character for character.  When Strapi
    answers 401 the middleware is rejected with 401 "Invalid or expired
    token", on any other failure with 503, and in both cases the
    downstream handler is not run. *)
Theorem middleware_validates_token (authHeader : string)
        (next : gmap string Json → H Ext unit) (n : Net Ext) :
  String.prefix "Bearer " authHeader = true →
  let request := validation strapi (substring7 authHeader) in
  Authorization (headers request) = Some authHeader
  ∧ url request = base_url strapi +:+ "/api/users/me"
  ∧ ∀ (error : AxiosError) (x : Ext),
      users_me request (outside n) = (inl error, x) →
      middleware strapi users_me (Some authHeader) next n
      = (Rejected (if bool_decide (response_status error = Some 401)
                   then ApiError "Invalid or expired token" (Some 401)
                   else ApiError "Authentication service unavailable" (Some 503)),
         mkNet x (sent n ++ [request])).
Proof.
  intros Hprefix request. destruct (bearer_substring7 _ Hprefix) as [Hsame Htruthy].
  split; [|split; [done|]].
  - simpl. by rewrite Hsame.
  - intros error x Hcall. unfold middleware. rewrite Hprefix, Htruthy. simpl.
    unfold attempt. fold request. rewrite Hcall.
    by destruct (bool_decide _).
Qed.

(** X23. What the downstream handler sees.  When Strapi accepts the
    token, the middleware runs the downstream handler exactly once, on
    [ctx.state.user], and its outcome, rejections included, is the
    middleware's.  In [ctx.state.user] every property of Strapi's user
    carries Strapi's value, [id] included; [sub] is the decimal [id]
    unless Strapi's user has a [sub] of its own; and [role] is the
    [role] of Strapi's user as it came when there is one, and
    "authenticated" otherwise. *)
Theorem middleware_state_user (authHeader : string)
        (next : gmap string Json → H Ext unit) (n : Net Ext)
        (userData : UserData) (x : Ext) :
  String.prefix "Bearer " authHeader = true →
  let request := validation strapi (substring7 authHeader) in
  users_me request (outside n) = (inr userData, x) →
  let user := state_user userData in
  middleware strapi users_me (Some authHeader) next n
  = next user (mkNet x (sent n ++ [request]))
  ∧ (∀ k v, user_object userData !! k = Some v → user !! k = Some v)
  ∧ user !! "id" = Some (JsonNum (user_id userData))
  ∧ (user_props userData !! "sub" = None →
     user !! "sub" = Some (JsonStr (num_toString (user_id userData))))
  ∧ user !! "role" = Some (match user_props userData !! "role" with
                           | Some role => role
                           | None => JsonStr "authenticated"
                           end).
Proof.
  intros Hprefix request Hcall user.
  destruct (bearer_substring7 _ Hprefix) as [_ Htruthy].
  split; [|split; [|split; [|split]]].
  - unfold middleware. rewrite Hprefix, Htruthy. simpl.
    unfold attempt. fold request. by rewrite Hcall.
  - intros k v Hk. subst user. unfold state_user.
    by apply lookup_union_Some_l.
  - subst user. unfold state_user. apply lookup_union_Some_l.
    unfold user_object. by rewrite lookup_insert_eq.
  - intros Hsub. subst user. unfold state_user.
    rewrite lookup_union_r.
    + by rewrite lookup_insert_eq.
    + unfold user_object. by rewrite lookup_insert_ne.
  - subst user. unfold state_user.
    destruct (user_props userData !! "role") as [role|] eqn:Hrole.
    + apply lookup_union_Some_l. unfold user_object.
      by rewrite lookup_insert_ne.
    + assert (user_object userData !! "role" = None) as Hnone.
      { unfold user_object. by rewrite lookup_insert_ne. }
      rewrite lookup_union_r by done. rewrite Hnone.
      rewrite !lookup_insert_ne by done. by rewrite lookup_insert_eq.
Qed.

End Middleware.


(** ** The further behaviour on concrete deployments *)

Lemma useOtp_frame_witness :
  db (useOtp Scenario.platform Scenario.lib Scenario.deployed (mkOtpDto "424242")
             (Scenario.world Cases.both 10)).2 !! otpSentKey 7
  = Some (Keyv.mkEntry (Keyv.Num 599000) (Some 659000)).
Proof.
  rewrite (proj2 (useOtp_frame Scenario.platform Scenario.lib Scenario.deployed
                    (mkOtpDto "424242") (Scenario.world Cases.both 10) _ _
                    (surjective_pairing _)) eq_refl 7).
  reflexivity.
Defined.

Lemma useOtp_failure_keeps_code_witness :
  useOtp Scenario.platform Scenario.lib Cases.registry_down (mkOtpDto "424242")
         (Scenario.world Scenario.issued 10)
  = (Rejected (Rethrown Cases.unavailable),
     mkWorld Scenario.issued 10 [ClientsGet (Some 7)]).
Proof.
  apply (proj1 (useOtp_failure_keeps_code
                  Scenario.platform Scenario.lib Cases.registry_down
                  (mkOtpDto "424242") (Scenario.world Scenario.issued 10)
                  (Keyv.mkEntry (Keyv.OtpItem 7) (Some 600010)) 7
                  eq_refl eq_refl eq_refl)
               Cases.unavailable 10 eq_refl).
Defined.

Lemma sendOtp_useOtp_roundtrip_witness :
  ∃ w1 w' : World Z,
    sendOtp Scenario.platform Scenario.deployed 7 None (Scenario.world ∅ 600000)
    = (Resolved "424242", w1)
    ∧ useOtp Scenario.platform Scenario.lib Scenario.deployed (mkOtpDto "424242")
             (Scenario.world (db w1) 1200000)
      = (Resolved (mkTokenProfile ("jwt.1h." +:+ Scenario.uuid)
                                  (pick (client_obj Scenario.alice) userProfilKeys)),
         w').
Proof.
  destruct (sendOtp_useOtp_roundtrip
              Scenario.platform Scenario.lib Scenario.deployed 7 None
              (Scenario.world ∅ 600000) "424242" 600000 600000)
    as (w1 & Hsend & Hstored & Huse);
    [reflexivity|reflexivity|by apply code_not_otpSentKey|reflexivity|].
  exists w1. eexists. split; [exact Hsend|].
  apply (Huse (Scenario.world (db w1) 1200000) Scenario.alice 1200000
              ("jwt.1h." +:+ Scenario.uuid)
              (mkWorld (db w1) 1200000
                 [ClientsGet (Some 7); AclGetUserAcl (Some (JStr "a@x.com"));
                  JwtSign (set_role (client_payload Scenario.alice) (JStr "user"))
                          (mkSignOptions "RS256" "1h" "felix" Scenario.uuid)]));
    [exact Hstored| |reflexivity|reflexivity].
  right. done.
Defined.

Lemma sendOtp_code_expires_witness :
  ∃ w1 : World Z,
    sendOtp Scenario.platform Scenario.deployed 7 None (Scenario.world ∅ 600000)
    = (Resolved "424242", w1)
    ∧ useOtp Scenario.platform Scenario.lib Scenario.deployed (mkOtpDto "424242")
             (Scenario.world (db w1) 1200001)
      = (Rejected otp_used_or_expired,
         Scenario.world (base.delete "424242" (db w1)) 1200001).
Proof.
  destruct (sendOtp_code_expires
              Scenario.platform Scenario.lib Scenario.deployed 7 None
              (Scenario.world ∅ 600000) "424242" 600000 600000)
    as (w1 & Hsend & Hstored & Huse);
    [reflexivity|reflexivity|by apply code_not_otpSentKey|reflexivity|discriminate|].
  exists w1. split; [exact Hsend|].
  apply (Huse (Scenario.world (db w1) 1200001)); [exact Hstored|done].
Defined.

Lemma sendOtp_broker_failure_witness :
  ∃ w1 : World Z,
    sendOtp Scenario.platform Cases.broker_down 7 None (Scenario.world ∅ 600000)
    = (Rejected (Rethrown Cases.unavailable), w1)
    ∧ db w1 !! otpSentKey 7 = Some (Keyv.mkEntry (Keyv.Num 600000) (Some 660000))
    ∧ sendOtp Scenario.platform Cases.broker_down 7 None
              (Scenario.world (db w1) 630000)
      = (Rejected otp_rate_limited, Scenario.world (db w1) 630000).
Proof.
  destruct (sendOtp_broker_failure
              Scenario.platform Cases.broker_down 7 None
              (Scenario.world ∅ 600000) "424242" 600000 600000 Cases.unavailable)
    as (w1 & Hsend & _ & Hmark & Hagain);
    [reflexivity|reflexivity|by apply code_not_otpSentKey|reflexivity|].
  exists w1. split; [exact Hsend|]. split; [exact Hmark|].
  apply Hagain; [discriminate|exact Hmark|reflexivity].
Defined.

Lemma sendOtp_frame_witness :
  db (sendOtp Scenario.platform Scenario.deployed 8 None
              (Scenario.world Scenario.cooling 600000)).2 !! otpSentKey 7
  = Some (Keyv.mkEntry (Keyv.Num 599000) (Some 659000)).
Proof.
  rewrite (proj2 (sendOtp_frame Scenario.platform Scenario.deployed 8 None
                    (Scenario.world Scenario.cooling 600000) _ _ "424242" 600000
                    eq_refl (surjective_pairing _)) 7);
    [reflexivity|discriminate|].
  apply code_not_otpSentKey. reflexivity.
Defined.

Lemma generateToken_footprint_witness :
  generateToken Scenario.platform Scenario.lib Cases.acl_down
                Scenario.bare_claims None (Scenario.world Scenario.issued 10)
  = (Rejected (Rethrown Cases.unavailable),
     mkWorld Scenario.issued 10 [AclGetUserAcl (Some (JStr "a@x.com"))]).
Proof.
  destruct (generateToken_footprint
              Scenario.platform Scenario.lib Cases.acl_down Scenario.bare_claims None
              (Scenario.world Scenario.issued 10) _ _ (surjective_pairing _))
    as (_ & _ & Hon).
  destruct (proj1 (Hon eq_refl) Cases.unavailable 10 eq_refl) as [Hr Hw].
  rewrite (surjective_pairing (generateToken _ _ _ _ _ _)).
  by rewrite Hr, Hw.
Defined.

Lemma refresh_issuance_failure_witness :
  refresh Scenario.platform Scenario.lib Cases.acl_down Scenario.old_claims
          (Scenario.world ∅ 10)
  = (Rejected (Rethrown Cases.unavailable),
     mkWorld ∅ 10 [AclGetUserAcl (Some (JStr "a@x.com"))]).
Proof.
  apply (refresh_issuance_failure
           Scenario.platform Scenario.lib Cases.acl_down Scenario.old_claims
           (Scenario.world ∅ 10)
           (mkWorld ∅ 10 [AclGetUserAcl (Some (JStr "a@x.com"))])
           100 3700 (Rethrown Cases.unavailable));
    [reflexivity|reflexivity|discriminate|discriminate|reflexivity].
Defined.

Lemma refresh_revocation_failure_witness :
  refresh Scenario.platform Scenario.lib Cases.blocklist_down Scenario.old_claims
          (Scenario.world ∅ 10)
  = (Rejected (Rethrown Cases.unavailable),
     mkWorld ∅ 10
             [AclGetUserAcl (Some (JStr "a@x.com"));
              JwtSign (set_role (mkPayload None None None None
                                           (claims Scenario.old_claims))
                                (JStr "user"))
                      (mkSignOptions "RS256" "3600s" "felix" Scenario.uuid);
              BlocklistCreate "old-jti" 3700]).
Proof.
  apply (refresh_revocation_failure
           Scenario.platform Scenario.lib Cases.blocklist_down Scenario.old_claims
           (Scenario.world ∅ 10)
           (mkWorld ∅ 10
              [AclGetUserAcl (Some (JStr "a@x.com"));
               JwtSign (set_role (mkPayload None None None None
                                            (claims Scenario.old_claims))
                                 (JStr "user"))
                       (mkSignOptions "RS256" "3600s" "felix" Scenario.uuid)])
           100 3700 "old-jti" ("jwt.3600s." +:+ Scenario.uuid) Cases.unavailable 10);
    [reflexivity|reflexivity|discriminate|discriminate|reflexivity|discriminate
    |reflexivity|reflexivity].
Defined.

Lemma login_failures_witness :
  login Cases.bad_credentials Cases.up (mkLoginDto "a@x.com" (Some "wrong-password"))
        (Scenario.world ∅ 10)
  = (Rejected (ApiError "Invalid credentials" (Some 401)),
     mkWorld ∅ 10 [StrapiLogin (mkStrapiLogin "a@x.com" "wrong-password")]).
Proof.
  apply (proj1 (login_failures Cases.bad_credentials Cases.up
                  (mkLoginDto "a@x.com" (Some "wrong-password")) "wrong-password"
                  (Scenario.world ∅ 10) eq_refl ltac:(discriminate) ltac:(discriminate))
               (mkAxiosError (Some 400) None) 10 eq_refl).
Defined.

Lemma signup_register_failure_witness :
  signup Cases.taken Cases.up Scenario.new_signup (Scenario.world ∅ 10)
  = (Rejected (ApiError "Email or Username are already taken" (Some 400)),
     mkWorld ∅ 10
             [StrapiRegister (mkRegister "al" "a@x.com" "secret1" "Alice" "Liddell")]).
Proof.
  destruct (signup_register_failure
              Cases.taken Cases.up Scenario.new_signup (Scenario.world ∅ 10)
              (mkAxiosError (Some 400) (Some "Email or Username are already taken"))
              10 eq_refl)
    as (rejection & Hrun & H400 & _).
  rewrite Hrun.
  by rewrite (proj1 (H400 eq_refl) _ eq_refl ltac:(discriminate)).
Defined.

Lemma signup_create_failure_witness :
  signup Cases.healthy Cases.registry_down Scenario.new_signup (Scenario.world ∅ 10)
  = (Rejected (Rethrown Cases.unavailable),
     mkWorld ∅ 10
             [StrapiRegister (mkRegister "al" "a@x.com" "secret1" "Alice" "Liddell");
              ClientsCreate (mkCreate 1 "Alice" "Liddell" "a@x.com" 31
                                      signup_preferences true)]).
Proof.
  apply (signup_create_failure
           Cases.healthy Cases.registry_down Scenario.new_signup (Scenario.world ∅ 10)
           Scenario.registered Cases.unavailable 10 10 eq_refl eq_refl);
    discriminate.
Defined.

Lemma signup_fresh_witness :
  signup Cases.healthy Cases.up Scenario.new_signup (Scenario.world ∅ 10)
  = (Resolved
       (mkAuthResponse
          (Some "strapi.jwt")
          (Some (pick (spread (client_obj Scenario.alice)
                              (strapi_obj (user Scenario.registered)))
                      userProfilKeys))),
     mkWorld ∅ 10
             [StrapiRegister (mkRegister "al" "a@x.com" "secret1" "Alice" "Liddell");
              ClientsCreate (mkCreate 1 "Alice" "Liddell" "a@x.com" 31
                                      signup_preferences true)]).
Proof.
  apply (signup_fresh Cases.healthy Cases.up Scenario.new_signup (Scenario.world ∅ 10)
                      Scenario.registered Scenario.alice 10 10 eq_refl eq_refl).
Defined.

Lemma useRepliersToken_leaves_store_witness :
  db (useRepliersToken Scenario.platform Scenario.lib
                       (Scenario.mailed true [Scenario.old_message])
                       (mkTokenDto "6f1d2c3b")
                       (Scenario.world Scenario.issued 100)).2
  = Scenario.issued.
Proof.
  apply (proj1 (useRepliersToken_leaves_store
                  Scenario.platform Scenario.lib
                  (Scenario.mailed true [Scenario.old_message])
                  (mkTokenDto "6f1d2c3b") (Scenario.world Scenario.issued 100) _ _
                  (surjective_pairing _))).
  eexists. reflexivity.
Defined.

Lemma embedLogin_failures_witness :
  embedLogin Cases.garbled Scenario.lib Cases.up Scenario.embed (Scenario.world ∅ 10)
  = (Rejected (Rethrown (mkThrown "Unexpected token" None None)), Scenario.world ∅ 10).
Proof.
  apply (proj1 (embedLogin_failures Cases.garbled Scenario.lib Cases.up Scenario.embed
                  (Scenario.world ∅ 10) eq_refl)).
  reflexivity.
Defined.

Lemma formatOtpMessageContent_carries_code_witness :
  content_links (formatOtpMessageContent Scenario.deployed "424242")
  = Some ["https://felix.test/otp?code=424242"].
Proof.
  destruct (formatOtpMessageContent_carries_code Scenario.deployed "424242")
    as (_ & _ & _ & Hlink).
  rewrite Hlink; [reflexivity|discriminate|discriminate].
Defined.


Lemma account_calls_map_errors_witness :
  ∃ (error : AxiosError) (x : unit),
    HttpCases.failing (A := Http.UserData) (Some 500)
      (StrapiClient.client HttpCases.settings Http.GET "/api/users/me"
                           (StrapiClient.bearer "stale") None) tt
    = (inl error, x)
    ∧ ApiError "Authentication service unavailable" (Some 503)
      = if bool_decide (response_status error = Some 401)
        then ApiError "Invalid or expired token" (Some 401)
        else ApiError "Authentication service unavailable" (Some 503).
Proof.
  destruct (proj1 (account_calls_map_errors
                     HttpCases.settings (HttpCases.failing (Some 500))
                     (HttpCases.serving Http.JsonNull) HttpCases.idle)
                  "stale" _ _ (surjective_pairing _)) as [_ Hrejected].
  apply (Hrejected (ApiError "Authentication service unavailable" (Some 503))).
  reflexivity.
Defined.

Lemma content_reads_never_fail_witness :
  ∃ request : Http.Request,
    StrapiClient.getArticles
      HttpCases.settings (HttpCases.failing (Some 500))
      (StrapiClient.mkArticlesParams (Some (StrapiClient.Int 2)) None None None)
      HttpCases.idle
    = (Resolved StrapiClient.no_articles, Http.mkNet tt [request]).
Proof.
  destruct (proj1 (content_reads_never_fail
                     HttpCases.settings (HttpCases.failing (Some 500)) HttpCases.idle)
                  (StrapiClient.mkArticlesParams (Some (StrapiClient.Int 2))
                                                 None None None))
    as (body & request & Hrun & _ & Hfailed & _).
  exists request. rewrite Hrun.
  by rewrite (Hfailed (mkAxiosError (Some 500) None) eq_refl).
Defined.

Lemma articles_route_witness :
  ∃ request : Http.Request,
    Http.sent (ContentRouter.articles
                 HttpCases.settings (HttpCases.serving Http.JsonNull) HttpCases.parseInt
                 (<["categoryId" := "news"]> ∅) HttpCases.idle).2
    = [request]
    ∧ Http.url request
      = "/api/articles?pagination[page]=1&pagination[pageSize]=10&_sort=createdAt:DESC".
Proof.
  destruct (articles_route HttpCases.settings (HttpCases.serving Http.JsonNull)
                           HttpCases.parseInt (<["categoryId" := "news"]> ∅)
                           HttpCases.idle) as (_ & Hrequest & _).
  destruct (Hrequest _ _ (surjective_pairing _))
    as (request & page & size & Hsent & Hurl & Hpage & Hsize).
  exists request. split; [exact Hsent|].
  rewrite Hurl, (Hpage eq_refl), (Hsize eq_refl). reflexivity.
Defined.

Lemma article_route_witness :
  ContentRouter.article HttpCases.settings (HttpCases.failing (Some 500)) "hello"
                        HttpCases.idle
  = (Rejected (ApiError "Article not found" (Some 404)),
     Http.mkNet tt
       [StrapiClient.client HttpCases.settings Http.GET "/api/articles/hello"
                            (Some "Bearer api-key") None]).
Proof.
  apply (article_route HttpCases.settings (HttpCases.failing (Some 500)) "hello"
                       HttpCases.idle (inl (mkAxiosError (Some 500) None)) tt).
  reflexivity.
Defined.

Lemma middleware_requires_bearer_witness :
  JwtMiddleware.middleware HttpCases.settings HttpCases.users_me
                           (Some "Basic dXNlcjpwYXNz") HttpCases.downstream
                           HttpCases.idle
  = (Rejected JwtMiddleware.no_token, HttpCases.idle).
Proof.
  apply (middleware_requires_bearer HttpCases.settings HttpCases.users_me
                                    (Some "Basic dXNlcjpwYXNz") HttpCases.downstream
                                    HttpCases.idle).
  right. eexists. split; reflexivity.
Defined.

Lemma middleware_validates_token_witness :
  JwtMiddleware.middleware HttpCases.settings HttpCases.users_me
                           (Some "Bearer bad") HttpCases.downstream HttpCases.idle
  = (Rejected (ApiError "Invalid or expired token" (Some 401)),
     Http.mkNet tt [JwtMiddleware.validation HttpCases.settings "bad"]).
Proof.
  apply (proj2 (proj2 (middleware_validates_token
                         HttpCases.settings HttpCases.users_me "Bearer bad"
                         HttpCases.downstream HttpCases.idle eq_refl))
               (mkAxiosError (Some 401) None) tt).
  reflexivity.
Defined.

Lemma middleware_state_user_witness :
  JwtMiddleware.middleware HttpCases.settings HttpCases.users_me
                           (Some "Bearer good") HttpCases.downstream HttpCases.idle
  = (Resolved tt, Http.mkNet tt [JwtMiddleware.validation HttpCases.settings "good"])
  ∧ JwtMiddleware.state_user HttpCases.editor !! "role"
    = Some (Http.JsonObj (<["type" := Http.JsonStr "editor"]>
                            (<["name" := Http.JsonStr "Editor"]> ∅)))
  ∧ JwtMiddleware.state_user HttpCases.editor !! "sub" = Some (Http.JsonStr "31").
Proof.
  destruct (middleware_state_user HttpCases.settings HttpCases.users_me "Bearer good"
                                  HttpCases.downstream HttpCases.idle
                                  HttpCases.editor tt eq_refl eq_refl)
    as (Hrun & _ & _ & Hsub & Hrole).
  split; [exact Hrun|]. split; [exact Hrole|]. apply Hsub. reflexivity.
Defined.
